(** * Voizy recommendation service: the hybrid recommender, verified

    A shallow embedding of [app/ml/models/hybrid.py], of the repositories
    it reads ([app/data/repositories/*.py]), of the feature extractors'
    numeric embeddings ([app/ml/features/*.py]) and of the HTTP route that
    serves recommendations ([app/api/routes.py]).

    Conventions of the embedding:
    - Python [float] and [int] arithmetic is exact arithmetic on [Q] and [Z];
    - a [datetime] is its number of microseconds since the epoch, and the
      clock ([datetime.utcnow()], [datetime.today()]) is read once per call;
    - a raised exception is the [Raise] case of [result]; every exception
      of the model derives from Python's [Exception];
    - the SQL engine is an oracle: a [Session] answers each query the
      repositories issue, and is a snapshot for the length of one call;
    - [random.random()] reads the next draw of an explicit generator. *)

From Stdlib Require Import ZArith QArith String Ascii DecimalString List Permutation Lia.
From Stdlib Require Import Reals Lra.
From stdpp Require Import base functions gmap strings list fin_maps.

#[local] Open Scope string_scope.
#[local] Open Scope Z_scope.
#[local] Open Scope list_scope.
#[local] Open Scope stdpp_scope.

(** ** Exceptions and fallible computations *)

Inductive exn : Type :=
| KeyError (key : string)
| TypeError (msg : string)
| ValueError (msg : string)
| ZeroDivisionError
| HTTPException (status_code : Z) (detail : string)
| DatabaseError (msg : string).

Inductive result (A : Type) : Type :=
| Ok (a : A)
| Raise (e : exn).

Arguments Ok {A} a.
Arguments Raise {A} e.

(** Sequencing: the first exception raised ends the computation. *)
Definition bind {A B} (m : result A) (k : A -> result B) : result B :=
  match m with
  | Ok a => k a
  | Raise e => Raise e
  end.

Declare Scope result_scope.
Delimit Scope result_scope with result.
Bind Scope result_scope with result.
Notation "m ≫= f" := (bind m f) (at level 60, right associativity) : result_scope.
Notation "x ← y ; z" := (bind y (fun x => z))
  (at level 20, y at level 100, z at level 200, only parsing) : result_scope.
#[local] Open Scope result_scope.

(** [try: body  except Exception as e: handler e] *)
Definition try_except {A} (body : result A) (handler : exn -> result A) : result A :=
  match body with
  | Ok a => Ok a
  | Raise e => handler e
  end.

(** ** Python values *)

Inductive pyval : Type :=
| VNone
| VBool (b : bool)
| VInt (z : Z)
| VFloat (q : Q)
| VStr (s : string)
| VDatetime (t : Z)
| VStrList (l : list string).

#[global] Instance Q_eq_dec : EqDecision Q.
Proof. solve_decision. Defined.

#[global] Instance pyval_eq_dec : EqDecision pyval.
Proof. solve_decision. Defined.

(** A [dict] with string keys. *)
Abbreviation pydict := (gmap string pyval).

(** [d[k]] *)
Definition getitem {V} (d : gmap string V) (k : string) : result V :=
  match d !! k with
  | Some v => Ok v
  | None => Raise (KeyError k)
  end.

(** [d.get(k, dflt)] and [d.get(k)] *)
Definition dict_get (d : pydict) (k : string) (dflt : pyval) : pyval :=
  match d !! k with
  | Some v => v
  | None => dflt
  end.

Definition dict_get_none (d : pydict) (k : string) : pyval := dict_get d k VNone.

(** Truth value of an object, as [if x:] and [not x] test it. *)
Definition truthy (v : pyval) : bool :=
  match v with
  | VNone => false
  | VBool b => b
  | VInt z => negb (z =? 0)
  | VFloat q => negb (Qeq_bool q 0)
  | VStr s => negb (String.eqb s "")
  | VDatetime _ => true
  | VStrList l => match l with [] => false | _ => true end
  end.

(** [if not content_data] on an [Optional[Dict]]: [None] and [{}] are false. *)
Definition dict_truthy (o : option pydict) : bool :=
  match o with
  | None => false
  | Some d => negb (bool_decide (d = ∅))
  end.

Definition list_truthy {A} (l : list A) : bool :=
  match l with [] => false | _ => true end.

Definition opt_list_truthy {A} (o : option (list A)) : bool :=
  match o with None => false | Some l => list_truthy l end.

(** The dictionary behind a true [Optional[Dict]]. *)
Definition true_dict (o : option pydict) : option pydict :=
  match o with
  | Some d => if dict_truthy (Some d) then Some d else None
  | None => None
  end.

(** [a > b] *)
Definition Qgtb (a b : Q) : bool := negb (Qle_bool a b).

(** Numbers: [bool] and [int] are numbers too. *)
Definition as_number (v : pyval) : result Q :=
  match v with
  | VInt z => Ok (inject_Z z)
  | VFloat q => Ok q
  | VBool b => Ok (if b then 1%Q else 0%Q)
  | _ => Raise (TypeError "unsupported operand type(s)")
  end.

(** Content identifiers are integers ([content_id: int] in the source). *)
Definition as_int (v : pyval) : result Z :=
  match v with
  | VInt z => Ok z
  | _ => Raise (TypeError "content_id is not an int")
  end.

(** A dictionary key must be hashable. *)
Definition as_key (v : pyval) : result pyval :=
  match v with
  | VStrList _ => Raise (TypeError "unhashable type: 'list'")
  | _ => Ok v
  end.

(** [a / b] on numbers *)
Definition truediv (a b : Q) : result Q :=
  if Qeq_bool b 0 then Raise ZeroDivisionError else Ok (a / b)%Q.

(** [min(a, b)] and [max(a, b)]: the first argument wins a tie. *)
Definition py_min (a b : Q) : Q := if Qlt_le_dec b a then b else a.
Definition py_max (a b : Q) : Q := if Qlt_le_dec a b then b else a.

(** [s.lower()] on ASCII text *)
Definition lower_ascii (c : ascii) : ascii :=
  let n := nat_of_ascii c in
  if (Nat.leb 65 n && Nat.leb n 90)%bool then ascii_of_nat (n + 32) else c.

Fixpoint lower (s : string) : string :=
  match s with
  | EmptyString => EmptyString
  | String c s' => String (lower_ascii c) (lower s')
  end.

(** [l[:n]]: a negative bound counts from the end. *)
Definition slice_to {A} (l : list A) (n : Z) : list A :=
  if 0 <=? n then firstn (Z.to_nat n) l
  else firstn (Z.to_nat (Z.of_nat (length l) + n)) l.

(** ** Time *)

Definition microseconds_per_day : Z := 86400000000.

(** [(a - b).days]: [timedelta] normalises towards minus infinity. *)
Definition timedelta_days (a b : Z) : Z := (a - b) / microseconds_per_day.

(** [t - timedelta(days=n)] *)
Definition minus_days (t n : Z) : Z := t - n * microseconds_per_day.

(** Proleptic Gregorian date (year, month, day) of a timestamp. *)
Definition civil_from_days (z0 : Z) : Z * Z * Z :=
  let z := z0 + 719468 in
  let era := z / 146097 in
  let doe := z - era * 146097 in
  let yoe := (doe - doe / 1460 + doe / 36524 - doe / 146096) / 365 in
  let y := yoe + era * 400 in
  let doy := doe - (365 * yoe + yoe / 4 - yoe / 100) in
  let mp := (5 * doy + 2) / 153 in
  let d := doy - (153 * mp + 2) / 5 + 1 in
  let m := if mp <? 10 then mp + 3 else mp - 9 in
  (if m <=? 2 then y + 1 else y, m, d).

Definition date_of (t : Z) : Z * Z * Z := civil_from_days (t / microseconds_per_day).

(** The clock of one call. *)
Record Clock : Type := mkClock {
  utcnow : Z;
  today : Z
}.

(** ** The database: schema rows and the session *)

Module User.
Record t : Type := mk {
  user_id : Z;
  username : string;
  created_at : option Z
}.
End User.

Module UserProfile.
Record t : Type := mk {
  first_name : option string;
  last_name : option string;
  preferred_name : option string;
  birth_date : option Z;
  city_of_residence : option string;
  place_of_work : option string;
  date_joined : option Z
}.
End UserProfile.

(** [embedding_vector] holds the JSON array that [update_*_embedding]
    wrote, already decoded; [None] is an empty or NULL column. *)
Module UserEmbedding.
Record t : Type := mk { embedding_vector : option (list Q) }.
End UserEmbedding.

Module ContentEmbedding.
Record t : Type := mk { embedding_vector : option (list Q) }.
End ContentEmbedding.

Module Post.
Record t : Type := mk {
  post_id : Z;
  user_id : Z;
  to_user_id : Z;
  original_post_id : option Z;
  impressions : Z;
  views : Z;
  content_text : option string;
  created_at : option Z;
  updated_at : option Z;
  location_name : option string;
  location_lat : option Q;
  location_lng : option Q;
  is_poll : option bool
}.
End Post.

(** A row of the trending query of [get_trending_content]. *)
Module TrendingRow.
Record t : Type := mk {
  post_id : Z;
  user_id : Z;
  content_text : option string;
  created_at : option Z;
  impressions : Z;
  views : Z;
  reaction_count : Z;
  comment_count : Z;
  share_count : Z
}.
End TrendingRow.

(** A row of the union query of [get_user_content_interactions]. *)
Module InteractionRow.
Record t : Type := mk {
  post_id : Z;
  reaction_type : string;
  interaction_time : option Z;
  interaction_type : string
}.
End InteractionRow.

(** One field per query the repositories issue; the arguments are the
    values bound in the query's filters and limit. *)
Record Session : Type := mkSession {
  query_user : Z -> option User.t;
  query_user_profile : Z -> option UserProfile.t;
  query_interest_names : Z -> list string;
  query_friends : Z -> list Z;
  query_user_embedding : Z -> string -> option UserEmbedding.t;
  query_similar_users : Z -> Z -> list (Z * Z);
  query_post : Z -> option Post.t;
  query_reaction_count : Z -> Z;
  query_comment_count : Z -> Z;
  query_share_count : Z -> Z;
  query_hashtags : Z -> list string;
  query_content_embedding : Z -> string -> option ContentEmbedding.t;
  query_trending_posts : Z -> Z -> list TrendingRow.t;
  query_posts_by_hashtag : string -> Z -> list Post.t;
  query_interactions : Z -> Z -> list InteractionRow.t
}.

Definition opt_int (o : option Z) : pyval :=
  match o with Some z => VInt z | None => VNone end.
Definition opt_float (o : option Q) : pyval :=
  match o with Some q => VFloat q | None => VNone end.
Definition opt_str (o : option string) : pyval :=
  match o with Some s => VStr s | None => VNone end.
Definition opt_datetime (o : option Z) : pyval :=
  match o with Some t => VDatetime t | None => VNone end.
Definition opt_bool (o : option bool) : pyval :=
  match o with Some b => VBool b | None => VNone end.

(** ** The repositories as the recommender and the route call them

    [HybridRecommender.__init__] and the route receive their repositories
    as arguments; they rely on these methods only.  A method may raise. *)

Module UserRepo.
Record t : Type := mk {
  get_user_by_id : Session -> Z -> result (option pydict);
  get_user_interests : Session -> Z -> result (list string);
  get_user_friends : Session -> Z -> result (list Z);
  get_user_embedding : Session -> Z -> result (option (list Q));
  get_users_with_similar_interests : Session -> Z -> Z -> result (list Z)
}.
End UserRepo.

(** [get_trending_content] takes its arguments as the call site binds them:
    [db], [days] and [limit], each possibly not passed. *)
Module ContentRepo.
Record t : Type := mk {
  get_content_by_id : Session -> Z -> result (option pydict);
  get_content_embedding : Session -> Z -> result (option (list Q));
  get_trending_content : option Session -> option Z -> option Z -> result (list pydict);
  get_content_by_hashtag : Session -> string -> Z -> result (list pydict)
}.
End ContentRepo.

Module InteractionRepo.
Record t : Type := mk {
  get_user_content_interactions : Session -> Z -> Z -> result (list pydict)
}.
End InteractionRepo.

(** ** app/data/repositories/user_repository.py *)

Module UserRepository.

Definition _calculate_age (clock : Clock) (birth_date : option Z) : pyval :=
  match birth_date with
  | None => VNone
  | Some b =>
      let '(ty, tm, td) := date_of (today clock) in
      let '(byear, bm, bd) := date_of b in
      let before := ((tm <? bm) || ((tm =? bm) && (td <? bd)))%bool in
      VInt (ty - byear - (if before then 1 else 0))
  end.

Definition get_user_by_id (clock : Clock) (db : Session) (user_id : Z) : option pydict :=
  match query_user db user_id with
  | None => None
  | Some user =>
      let profile := query_user_profile db user_id in
      let user_data : pydict := list_to_map [
        ("user_id", VInt (User.user_id user));
        ("username", VStr (User.username user));
        ("created_at", opt_datetime (User.created_at user)) ] in
      match profile with
      | Some profile =>
          Some (list_to_map [
            ("first_name", opt_str (UserProfile.first_name profile));
            ("last_name", opt_str (UserProfile.last_name profile));
            ("preferred_name", opt_str (UserProfile.preferred_name profile));
            ("age", match UserProfile.birth_date profile with
                    | Some b => _calculate_age clock (Some b)
                    | None => VNone
                    end);
            ("city_of_residence", opt_str (UserProfile.city_of_residence profile));
            ("place_of_work", opt_str (UserProfile.place_of_work profile));
            ("date_joined", opt_datetime (UserProfile.date_joined profile)) ]
            ∪ user_data)
      | None => Some user_data
      end
  end.

Definition get_user_interests (db : Session) (user_id : Z) : list string :=
  query_interest_names db user_id.

Definition get_user_friends (db : Session) (user_id : Z) : list Z :=
  query_friends db user_id.

Definition get_user_embedding (db : Session) (user_id : Z) (embedding_type : string)
  : option (list Q) :=
  match query_user_embedding db user_id embedding_type with
  | Some embedding => UserEmbedding.embedding_vector embedding
  | None => None
  end.

Definition get_users_with_similar_interests (db : Session) (user_id limit : Z) : list Z :=
  map fst (query_similar_users db user_id limit).

Definition get_user_activity_features (db : Session) (user_id : Z) : pydict :=
  list_to_map [
    ("post_frequency", VInt 0);
    ("comment_frequency", VInt 0);
    ("reaction_frequency", VInt 0);
    ("share_frequency", VInt 0);
    ("active_days_per_week", VInt 0);
    ("avg_session_duration", VInt 0) ].

(** [UserRepository()] *)
Definition new (clock : Clock) : UserRepo.t := {|
  UserRepo.get_user_by_id := fun db user_id => Ok (get_user_by_id clock db user_id);
  UserRepo.get_user_interests := fun db user_id => Ok (get_user_interests db user_id);
  UserRepo.get_user_friends := fun db user_id => Ok (get_user_friends db user_id);
  UserRepo.get_user_embedding :=
    fun db user_id => Ok (get_user_embedding db user_id "combined");
  UserRepo.get_users_with_similar_interests :=
    fun db user_id limit => Ok (get_users_with_similar_interests db user_id limit)
|}.

End UserRepository.

(** ** app/data/repositories/content_repository.py *)

Module ContentRepository.

Definition get_content_by_id (db : Session) (content_id : Z) : option pydict :=
  match query_post db content_id with
  | None => None
  | Some post =>
      let reaction_count := query_reaction_count db content_id in
      let comment_count := query_comment_count db content_id in
      let share_count := query_share_count db content_id in
      let hashtag_list := query_hashtags db content_id in
      Some (list_to_map [
        ("content_id", VInt (Post.post_id post));
        ("user_id", VInt (Post.user_id post));
        ("to_user_id", VInt (Post.to_user_id post));
        ("original_post_id", opt_int (Post.original_post_id post));
        ("content_text", opt_str (Post.content_text post));
        ("created_at", opt_datetime (Post.created_at post));
        ("updated_at", opt_datetime (Post.updated_at post));
        ("location_name", opt_str (Post.location_name post));
        ("location_lat", opt_float (Post.location_lat post));
        ("location_lng", opt_float (Post.location_lng post));
        ("impressions", VInt (Post.impressions post));
        ("views", VInt (Post.views post));
        ("is_poll", opt_bool (Post.is_poll post));
        ("total_reactions", VInt reaction_count);
        ("total_comments", VInt comment_count);
        ("total_shares", VInt share_count);
        ("hashtags", VStrList hashtag_list) ])
  end.

Definition get_content_embedding (db : Session) (content_id : Z) (embedding_type : string)
  : option (list Q) :=
  match query_content_embedding db content_id embedding_type with
  | Some embedding => ContentEmbedding.embedding_vector embedding
  | None => None
  end.

(** [def get_trending_content(self, db, days=7, limit=50)]: an argument
    the caller does not pass is [None] here; [db] has no default. *)
Definition get_trending_content (clock : Clock)
    (db : option Session) (days limit : option Z) : result (list pydict) :=
  match db with
  | None =>
      Raise (TypeError
        "get_trending_content() missing 1 required positional argument: 'db'")
  | Some db =>
      let days := default 7 days in
      let limit := default 50 limit in
      let date_cutoff := minus_days (utcnow clock) days in
      let trending_posts := query_trending_posts db date_cutoff limit in
      Ok (map (fun post =>
        list_to_map [
          ("content_id", VInt (TrendingRow.post_id post));
          ("user_id", VInt (TrendingRow.user_id post));
          ("content_text", opt_str (TrendingRow.content_text post));
          ("created_at", opt_datetime (TrendingRow.created_at post));
          ("impressions", VInt (TrendingRow.impressions post));
          ("views", VInt (TrendingRow.views post));
          ("reaction_count", VInt (TrendingRow.reaction_count post));
          ("comment_count", VInt (TrendingRow.comment_count post));
          ("share_count", VInt (TrendingRow.share_count post));
          ("engagement_score",
             VInt (TrendingRow.share_count post * 3
                   + TrendingRow.comment_count post * 2
                   + TrendingRow.reaction_count post)) ] : pydict)
        trending_posts)
  end.

Definition get_content_by_hashtag (db : Session) (hashtag : string) (limit : Z)
  : list pydict :=
  let posts := query_posts_by_hashtag db hashtag limit in
  omap (fun post =>
          match get_content_by_id db (Post.post_id post) with
          | Some post_data =>
              if dict_truthy (Some post_data) then Some post_data else None
          | None => None
          end) posts.

(** [ContentRepository()] *)
Definition new (clock : Clock) : ContentRepo.t := {|
  ContentRepo.get_content_by_id := fun db content_id => Ok (get_content_by_id db content_id);
  ContentRepo.get_content_embedding :=
    fun db content_id => Ok (get_content_embedding db content_id "combined");
  ContentRepo.get_trending_content := get_trending_content clock;
  ContentRepo.get_content_by_hashtag :=
    fun db hashtag limit => Ok (get_content_by_hashtag db hashtag limit)
|}.

End ContentRepository.

(** ** app/data/repositories/interaction_repository.py *)

Module InteractionRepository.

Definition get_user_content_interactions (clock : Clock)
    (db : Session) (user_id days : Z) : list pydict :=
  let cutoff_date := minus_days (utcnow clock) days in
  let combined := query_interactions db user_id cutoff_date in
  map (fun interaction =>
    list_to_map [
      ("content_id", VInt (InteractionRow.post_id interaction));
      ("interaction_type", VStr (InteractionRow.interaction_type interaction));
      ("interaction_subtype", VStr (InteractionRow.reaction_type interaction));
      ("interaction_time", opt_datetime (InteractionRow.interaction_time interaction)) ]
    : pydict) combined.

(** [InteractionRepository()] *)
Definition new (clock : Clock) : InteractionRepo.t := {|
  InteractionRepo.get_user_content_interactions :=
    fun db user_id days => Ok (get_user_content_interactions clock db user_id days)
|}.

End InteractionRepository.

(** ** Loops *)

(** [for x in xs: s = body(s, x)], where the body may raise. *)
Fixpoint for_ {A S} (xs : list A) (s : S) (body : S -> A -> result S) : result S :=
  match xs with
  | [] => Ok s
  | x :: xs' => s' ← body s x; for_ xs' s' body
  end.

(** ** app/ml/features: the numeric sub-vectors of the embeddings *)

(** [v == 0] *)
Definition eq_zero (v : pyval) : bool :=
  match v with
  | VInt z => z =? 0
  | VFloat q => Qeq_bool q 0
  | VBool b => negb b
  | _ => false
  end.

Module ContentFeatureExtractor.

Definition _calculate_engagement_rate (content_data : pydict) : result Q :=
  let impressions := dict_get content_data "impressions" (VInt 0) in
  if eq_zero impressions then Ok 0%Q
  else
    reactions ← as_number (dict_get content_data "total_reactions" (VInt 0));
    comments ← as_number (dict_get content_data "total_comments" (VInt 0));
    shares ← as_number (dict_get content_data "total_shares" (VInt 0));
    let total_engagement := (reactions + comments * 2 + shares * 3)%Q in
    impressions ← as_number impressions;
    truediv total_engagement impressions.

(** The [engagement_features] dictionary of [extract_content_features]. *)
Definition engagement_features (content_data : pydict) : result pydict :=
  engagement_rate ← _calculate_engagement_rate content_data;
  Ok (list_to_map [
    ("impressions", dict_get content_data "impressions" (VInt 0));
    ("views", dict_get content_data "views" (VInt 0));
    ("total_reactions", dict_get content_data "total_reactions" (VInt 0));
    ("total_comments", dict_get content_data "total_comments" (VInt 0));
    ("total_shares", dict_get content_data "total_shares" (VInt 0));
    ("engagement_rate", VFloat engagement_rate) ]).

Definition _compute_engagement_embedding (engagement : pydict) : result (list Q) :=
  let max_impressions := 10000%Q in
  let max_reactions := 500%Q in
  let max_comments := 100%Q in
  let max_shares := 50%Q in
  impressions ← as_number (dict_get engagement "impressions" (VInt 0));
  let impressions_norm := py_min (impressions / max_impressions) 1 in
  views ← as_number (dict_get engagement "views" (VInt 0));
  let views_norm := py_min (views / max_impressions) 1 in
  reactions ← as_number (dict_get engagement "total_reactions" (VInt 0));
  let reactions_norm := py_min (reactions / max_reactions) 1 in
  comments ← as_number (dict_get engagement "total_comments" (VInt 0));
  let comments_norm := py_min (comments / max_comments) 1 in
  shares ← as_number (dict_get engagement "total_shares" (VInt 0));
  let shares_norm := py_min (shares / max_shares) 1 in
  engagement_rate ← as_number (dict_get engagement "engagement_rate" (VFloat 0));
  Ok [impressions_norm; views_norm; reactions_norm; comments_norm; shares_norm;
      engagement_rate].

End ContentFeatureExtractor.

Module UserFeatureExtractor.

Definition _compute_activity_embedding (activity : pydict) : result (list Q) :=
  post_freq ← as_number (dict_get activity "post_frequency" (VInt 0));
  comment_freq ← as_number (dict_get activity "comment_frequency" (VInt 0));
  reaction_freq ← as_number (dict_get activity "reaction_frequency" (VInt 0));
  share_freq ← as_number (dict_get activity "share_frequency" (VInt 0));
  active_days ← as_number (dict_get activity "active_days_per_week" (VInt 0));
  let max_post := 10%Q in
  let max_comment := 50%Q in
  let max_reaction := 100%Q in
  let max_share := 20%Q in
  Ok [py_min (post_freq / max_post) 1;
      py_min (comment_freq / max_comment) 1;
      py_min (reaction_freq / max_reaction) 1;
      py_min (share_freq / max_share) 1;
      (active_days / 7)%Q].

End UserFeatureExtractor.

(** ** What the recommender imports

    [sklearn]'s [cosine_similarity] on two rows, and the two
    [create_*_embedding] methods of the feature extractors, which compute
    an embedding and store it.  They write embedding rows only; what the
    recommender reads afterwards comes from the same snapshot. *)
Record Env : Type := mkEnv {
  clock : Clock;
  cosine_similarity : list Q -> list Q -> result Q;
  create_user_embedding : UserRepo.t -> InteractionRepo.t -> Session -> Z -> result (list Q);
  create_content_embedding : ContentRepo.t -> Session -> Z -> result (list Q)
}.

(** The module-level generator of [random]: [draws] are the successive
    values of [random.random()]. *)
Record Rng : Type := mkRng {
  draws : nat -> Q;
  pos : nat
}.

Definition random (g : Rng) : Q * Rng :=
  (draws g (pos g), {| draws := draws g; pos := S (pos g) |}).

(** [random.uniform(a, b)] is [a + (b - a) * random()]. *)
Definition uniform (a b : Q) (g : Rng) : Q * Rng :=
  let '(r, g') := random g in ((a + (b - a) * r)%Q, g').

(** ** app/ml/models/hybrid.py *)

(** A candidate dictionary, with the keys the four sources write;
    [social_score] is present in social candidates only. *)
Module Candidate.
Record t : Type := mk {
  content_id : Z;
  content_based_score : Q;
  collaborative_score : Q;
  popularity_score : Q;
  recency_score : Q;
  social_score : option Q
}.
End Candidate.

(** A scored candidate dictionary. *)
Module Scored.
Record t : Type := mk {
  content_id : Z;
  score : Q;
  content_similarity : Q;
  collaborative_score : Q;
  popularity_score : Q;
  recency_score : Q;
  factors : list string
}.

(** [a == b] on two such dictionaries *)
Definition eqb (a b : t) : bool :=
  (content_id a =? content_id b)
  && Qeq_bool (score a) (score b)
  && Qeq_bool (content_similarity a) (content_similarity b)
  && Qeq_bool (collaborative_score a) (collaborative_score b)
  && Qeq_bool (popularity_score a) (popularity_score b)
  && Qeq_bool (recency_score a) (recency_score b)
  && bool_decide (factors a = factors b).

Definition with_score (a : t) (s : Q) : t :=
  mk (content_id a) s (content_similarity a) (collaborative_score a)
     (popularity_score a) (recency_score a) (factors a).
End Scored.

Module Recommendation.
Record t : Type := mk {
  content_id : Z;
  score : Q;
  factors : list string
}.
End Recommendation.

Module HybridRecommender.

Record t : Type := mk {
  db : Session;
  user_repository : UserRepo.t;
  content_repository : ContentRepo.t;
  interaction_repository : InteractionRepo.t;
  model_weights : gmap string Q;
  version : string
}.

Definition __init__ (db : Session) (user_repository : UserRepo.t)
    (content_repository : ContentRepo.t) (interaction_repository : InteractionRepo.t) : t := {|
  db := db;
  user_repository := user_repository;
  content_repository := content_repository;
  interaction_repository := interaction_repository;
  model_weights := list_to_map [
    ("collaborative", 0.4%Q);
    ("content_based", 0.4%Q);
    ("popularity", 0.1%Q);
    ("recency", 0.1%Q) ];
  version := "1.0.0"
|}.

(** [(datetime.utcnow() - created_at).days if created_at else 30] *)
Definition age_days_of (env : Env) (created_at : pyval) : result Z :=
  if truthy created_at then
    match created_at with
    | VDatetime t => Ok (timedelta_days (utcnow (clock env)) t)
    | _ => Raise (TypeError "unsupported operand type(s) for -")
    end
  else Ok 30.

(** [max(0, 1 - (age_days / 30))] *)
Definition recency_of (age_days : Z) : Q := py_max 0 (1 - inject_Z age_days / 30).

(** [min(engagement / 100, 1.0)] *)
Definition popularity_of (engagement : Q) : Q := py_min (engagement / 100) 1.

Definition _get_content_based_candidates (env : Env) (self : t)
    (user_id : Z) (exclude_ids : gset Z) : result (list Candidate.t) :=
  interests ← UserRepo.get_user_interests (user_repository self) (db self) user_id;
  for_ interests [] (fun candidates interest =>
    posts ← ContentRepo.get_content_by_hashtag (content_repository self) (db self)
              (lower interest) 10;
    for_ posts candidates (fun candidates post =>
      content_id ← getitem post "content_id" ≫= as_int;
      if bool_decide (content_id ∈ exclude_ids) then Ok candidates
      else
        created_at ← getitem post "created_at";
        age_days ← age_days_of env created_at;
        let recency_score := recency_of age_days in
        engagement_score ← getitem post "engagement_score" ≫= as_number;
        Ok (candidates ++ [ {|
          Candidate.content_id := content_id;
          Candidate.content_based_score := 0.8;
          Candidate.collaborative_score := 0;
          Candidate.popularity_score := popularity_of engagement_score;
          Candidate.recency_score := recency_score;
          Candidate.social_score := None |} ]))).

Definition interaction_score_of (interaction_type : pyval) : Q :=
  if bool_decide (interaction_type = VStr "reaction") then 0.7
  else if bool_decide (interaction_type = VStr "comment") then 0.8
  else if bool_decide (interaction_type = VStr "share") then 0.9
  else 0.5.

Definition _get_collaborative_candidates (env : Env) (self : t)
    (user_id : Z) (exclude_ids : gset Z) : result (list Candidate.t) :=
  similar_users ← UserRepo.get_users_with_similar_interests
                    (user_repository self) (db self) user_id 20;
  st ← for_ similar_users (([] : list Candidate.t), (∅ : gset Z)) (fun st similar_user =>
    interactions ← InteractionRepo.get_user_content_interactions
                     (interaction_repository self) (db self) similar_user 14;
    for_ interactions st (fun (st : list Candidate.t * gset Z) (interaction : pydict) =>
      let candidates := fst st in
      let content_seen := snd st in
      content_id ← getitem interaction "content_id" ≫= as_int;
      if negb (bool_decide (content_id ∈ exclude_ids))
         && negb (bool_decide (content_id ∈ content_seen))
      then
        let content_seen := {[content_id]} ∪ content_seen in
        interaction_type ← getitem interaction "interaction_type";
        let interaction_score := interaction_score_of interaction_type in
        content_data ← ContentRepo.get_content_by_id (content_repository self) (db self)
                         content_id;
        match true_dict content_data with
        | None => Ok (candidates, content_seen)
        | Some content_data =>
            created_at ← getitem content_data "created_at";
            age_days ← age_days_of env created_at;
            let recency_score := recency_of age_days in
            reactions ← getitem content_data "total_reactions" ≫= as_number;
            comments ← getitem content_data "total_comments" ≫= as_number;
            shares ← getitem content_data "total_shares" ≫= as_number;
            let engagement := (reactions + comments * 2 + shares * 3)%Q in
            let popularity_score := popularity_of engagement in
            Ok (candidates ++ [ {|
                  Candidate.content_id := content_id;
                  Candidate.content_based_score := 0;
                  Candidate.collaborative_score := interaction_score;
                  Candidate.popularity_score := popularity_score;
                  Candidate.recency_score := recency_score;
                  Candidate.social_score := None |} ],
                content_seen)
        end
      else Ok (candidates, content_seen)));
  Ok (fst st).

Definition _get_social_candidates (env : Env) (self : t)
    (user_id : Z) (exclude_ids : gset Z) : result (list Candidate.t) :=
  friends ← UserRepo.get_user_friends (user_repository self) (db self) user_id;
  st ← for_ friends (([] : list Candidate.t), (∅ : gset Z)) (fun st friend_id =>
    let posts : list pydict := [] in
    for_ posts st (fun (st : list Candidate.t * gset Z) (post : pydict) =>
      let candidates := fst st in
      let content_seen := snd st in
      content_id ← getitem post "content_id" ≫= as_int;
      if negb (bool_decide (content_id ∈ exclude_ids))
         && negb (bool_decide (content_id ∈ content_seen))
      then
        let content_seen := {[content_id]} ∪ content_seen in
        created_at ← getitem post "created_at";
        age_days ← age_days_of env created_at;
        let recency_score := recency_of age_days in
        popularity_score ←
          match post !! "engagement_score" with
          | Some v => engagement_score ← as_number v; Ok (popularity_of engagement_score)
          | None => Ok 0.5%Q
          end;
        Ok (candidates ++ [ {|
              Candidate.content_id := content_id;
              Candidate.content_based_score := 0;
              Candidate.collaborative_score := 0;
              Candidate.popularity_score := popularity_score;
              Candidate.recency_score := recency_score;
              Candidate.social_score := Some 0.9%Q |} ],
            content_seen)
      else Ok (candidates, content_seen)));
  Ok (fst st).

(** The call is [get_trending_content(days=3, limit=20)]: no [db]. *)
Definition _get_trending_candidates (env : Env) (self : t)
    (exclude_ids : gset Z) : result (list Candidate.t) :=
  trending_posts ← ContentRepo.get_trending_content (content_repository self)
                     None (Some 3) (Some 20);
  for_ trending_posts [] (fun candidates post =>
    content_id ← getitem post "content_id" ≫= as_int;
    if bool_decide (content_id ∈ exclude_ids) then Ok candidates
    else
      created_at ← getitem post "created_at";
      age_days ← age_days_of env created_at;
      let recency_score := recency_of age_days in
      reactions ← getitem post "reaction_count" ≫= as_number;
      comments ← getitem post "comment_count" ≫= as_number;
      shares ← getitem post "share_count" ≫= as_number;
      let engagement := (reactions + comments * 2 + shares * 3)%Q in
      let popularity_score := popularity_of engagement in
      Ok (candidates ++ [ {|
        Candidate.content_id := content_id;
        Candidate.content_based_score := 0;
        Candidate.collaborative_score := 0;
        Candidate.popularity_score := popularity_score;
        Candidate.recency_score := recency_score;
        Candidate.social_score := None |} ])).

(** The "remove duplicates" loop, from the state [(seen_ids, unique_candidates)]. *)
Fixpoint unique_loop (candidates : list Candidate.t)
    (seen_ids : gset Z) (unique_candidates : list Candidate.t) : list Candidate.t :=
  match candidates with
  | [] => unique_candidates
  | candidate :: rest =>
      let content_id := Candidate.content_id candidate in
      if bool_decide (content_id ∈ seen_ids)
      then unique_loop rest seen_ids unique_candidates
      else unique_loop rest ({[content_id]} ∪ seen_ids) (unique_candidates ++ [candidate])
  end.

Definition unique_candidates (candidates : list Candidate.t) : list Candidate.t :=
  unique_loop candidates ∅ [].

Definition content_type_of (content_data : pydict) : string :=
  if truthy (dict_get_none content_data "is_poll") then "poll"
  else if truthy (dict_get_none content_data "original_post_id") then "repost"
  else "post".

(** [if filters:] *)
Definition filters_truthy (filters : option (gmap string (list string))) : bool :=
  match filters with
  | None => false
  | Some f => negb (bool_decide (f = ∅))
  end.

Definition apply_filters (self : t) (filters : gmap string (list string))
    (unique_candidates : list Candidate.t) : result (list Candidate.t) :=
  for_ unique_candidates [] (fun filtered_candidates candidate =>
    match filters !! "content_types" with
    | Some content_types =>
        content_data ← ContentRepo.get_content_by_id (content_repository self) (db self)
                         (Candidate.content_id candidate);
        match true_dict content_data with
        | None => Ok filtered_candidates
        | Some content_data =>
            let content_type := content_type_of content_data in
            if bool_decide (content_type ∈ content_types)
            then Ok (filtered_candidates ++ [candidate])
            else Ok filtered_candidates
        end
    | None => Ok (filtered_candidates ++ [candidate])
    end).

Definition _get_recommendation_candidates (env : Env) (self : t)
    (user_id : Z) (exclude_ids : gset Z) (filters : option (gmap string (list string)))
  : result (list Candidate.t) :=
  let candidates : list Candidate.t := [] in
  content_based_candidates ← _get_content_based_candidates env self user_id exclude_ids;
  let candidates := candidates ++ content_based_candidates in
  cf_candidates ← _get_collaborative_candidates env self user_id exclude_ids;
  let candidates := candidates ++ cf_candidates in
  social_candidates ← _get_social_candidates env self user_id exclude_ids;
  let candidates := candidates ++ social_candidates in
  trending_candidates ← _get_trending_candidates env self exclude_ids;
  let candidates := candidates ++ trending_candidates in
  let unique := unique_candidates candidates in
  if filters_truthy filters
  then apply_filters self (default ∅ filters) unique
  else Ok unique.

(** The method is the same on any number type [F]; [cosine] is the library
    call [cosine_similarity(array1, array2)[0][0]]. *)
Definition _calculate_similarity {F} (zero : F) (cosine : list F -> list F -> result F)
    (vec1 vec2 : list F) : F :=
  if negb (list_truthy vec1) || negb (list_truthy vec2)
     || negb (Nat.eqb (length vec1) (length vec2))
  then zero
  else
    match cosine vec1 vec2 with
    | Ok similarity => similarity
    | Raise e => zero
    end.

(** The stored content embedding, or else a freshly created one. *)
Definition content_embedding_of (env : Env) (self : t) (content_id : Z) : result (list Q) :=
  content_embedding ← ContentRepo.get_content_embedding (content_repository self) (db self)
                        content_id;
  if negb (opt_list_truthy content_embedding)
  then create_content_embedding env (content_repository self) (db self) content_id
  else Ok (default [] content_embedding).

Definition factors_of (collaborative_score content_similarity popularity_score
    recency_score : Q) (social_score : option Q) : list string :=
  let factors : list string := [] in
  let factors := if Qgtb collaborative_score 0.3 then factors ++ ["similar_users"] else factors in
  let factors := if Qgtb content_similarity 0.3 then factors ++ ["your_interests"] else factors in
  let factors := if Qgtb popularity_score 0.3 then factors ++ ["popular"] else factors in
  let factors := if Qgtb recency_score 0.7 then factors ++ ["recent"] else factors in
  let factors :=
    match social_score with
    | Some s => if Qgtb s 0.3 then factors ++ ["friend_activity"] else factors
    | None => factors
    end in
  if negb (list_truthy factors) then factors ++ ["recommended_for_you"] else factors.

(** The body of the scoring loop. *)
Definition score_candidate (env : Env) (self : t) (user_embedding : list Q)
    (candidate : Candidate.t) : result Scored.t :=
  let content_id := Candidate.content_id candidate in
  content_embedding ← content_embedding_of env self content_id;
  let content_similarity :=
    if list_truthy user_embedding && list_truthy content_embedding
    then _calculate_similarity 0%Q (cosine_similarity env) user_embedding content_embedding
    else 0%Q in
  let collaborative_score := Candidate.collaborative_score candidate in
  let popularity_score := Candidate.popularity_score candidate in
  let recency_score := Candidate.recency_score candidate in
  w_collaborative ← getitem (model_weights self) "collaborative";
  w_content_based ← getitem (model_weights self) "content_based";
  w_popularity ← getitem (model_weights self) "popularity";
  w_recency ← getitem (model_weights self) "recency";
  let final_score :=
    (w_collaborative * collaborative_score
     + w_content_based * content_similarity
     + w_popularity * popularity_score
     + w_recency * recency_score)%Q in
  let factors :=
    factors_of collaborative_score content_similarity popularity_score recency_score
      (Candidate.social_score candidate) in
  Ok {| Scored.content_id := content_id;
        Scored.score := final_score;
        Scored.content_similarity := content_similarity;
        Scored.collaborative_score := collaborative_score;
        Scored.popularity_score := popularity_score;
        Scored.recency_score := recency_score;
        Scored.factors := factors |}.

(** [l.sort(key=lambda x: x["score"], reverse=True)]: stable, descending. *)
Fixpoint insert_desc (x : Scored.t) (l : list Scored.t) : list Scored.t :=
  match l with
  | [] => [x]
  | y :: l' =>
      if Qle_bool (Scored.score y) (Scored.score x) then x :: y :: l'
      else y :: insert_desc x l'
  end.

Definition sort_desc (l : list Scored.t) : list Scored.t := foldr insert_desc [] l.

Definition _score_candidates (env : Env) (self : t) (user_id : Z)
    (user_embedding : list Q) (candidates : list Candidate.t) : result (list Scored.t) :=
  scored_candidates ← for_ candidates [] (fun scored_candidates candidate =>
    scored_candidate ← score_candidate env self user_embedding candidate;
    Ok (scored_candidates ++ [scored_candidate]));
  Ok (sort_desc scored_candidates).

(** First loop of [_diversify_recommendations]: at most 2 posts per
    creator, until 50 are collected. *)
Fixpoint creator_cap_loop (self : t) (candidates : list Scored.t)
    (creators_seen : pyval -> Z) (diversified : list Scored.t) : result (list Scored.t) :=
  match candidates with
  | [] => Ok diversified
  | candidate :: rest =>
      let content_id := Scored.content_id candidate in
      content_data ← ContentRepo.get_content_by_id (content_repository self) (db self)
                       content_id;
      match true_dict content_data with
      | None => creator_cap_loop self rest creators_seen diversified
      | Some content_data =>
          creator_id ← as_key (dict_get_none content_data "user_id");
          let creator_count := creators_seen creator_id in
          let under_cap := creator_count <? 2 in
          let diversified :=
            if under_cap then diversified ++ [candidate] else diversified in
          let creators_seen :=
            if under_cap then <[creator_id := creator_count + 1]> creators_seen
            else creators_seen in
          if (50 <=? length diversified)%nat then Ok diversified
          else creator_cap_loop self rest creators_seen diversified
      end
  end.

(** [candidate not in diversified] *)
Definition not_in (candidate : Scored.t) (diversified : list Scored.t) : bool :=
  negb (existsb (Scored.eqb candidate) diversified).

(** Second loop: add more from the original list. *)
Fixpoint backfill_loop (candidates : list Scored.t) (diversified : list Scored.t)
  : list Scored.t :=
  match candidates with
  | [] => diversified
  | candidate :: rest =>
      let diversified :=
        if not_in candidate diversified then diversified ++ [candidate] else diversified in
      if (50 <=? length diversified)%nat then diversified
      else backfill_loop rest diversified
  end.

(** Third loop: a 30% chance of a boost of up to 10%.  The scorer builds
    one dictionary per candidate, so the entries of the list are distinct
    objects and [rest[i]["score"] *= boost] changes entry [i] only. *)
Fixpoint boost_loop (rest : list Scored.t) (g : Rng) : list Scored.t * Rng :=
  match rest with
  | [] => ([], g)
  | item :: rest' =>
      let '(r, g) := random g in
      if Qgtb 0.3 r then
        let '(boost, g) := uniform 1.0 1.1 g in
        let item := Scored.with_score item (Scored.score item * boost) in
        let '(rest', g) := boost_loop rest' g in
        (item :: rest', g)
      else
        let '(rest', g) := boost_loop rest' g in
        (item :: rest', g)
  end.

(** The list after the first two loops. *)
Definition diversified_of (self : t) (candidates : list Scored.t) : result (list Scored.t) :=
  diversified ← creator_cap_loop self candidates (fun _ => 0) [];
  if (length diversified <? 50)%nat
  then Ok (backfill_loop candidates diversified)
  else Ok diversified.

Definition _diversify_recommendations (self : t) (g : Rng) (candidates : list Scored.t)
  : result (list Scored.t * Rng) :=
  diversified ← diversified_of self candidates;
  let final_list := take 5 diversified in
  let rest := drop 5 diversified in
  let '(rest, g) := boost_loop rest g in
  let rest := sort_desc rest in
  Ok (final_list ++ rest, g).

(** [if not user_features] *)
Definition features_truthy (user_features : option (gmap string (list Q))) : bool :=
  match user_features with
  | None => false
  | Some f => negb (bool_decide (f = ∅))
  end.

(** The [try] block of [recommend]. *)
Definition recommend_body (env : Env) (self : t) (g : Rng) (user_id : Z)
    (user_features : option (gmap string (list Q)))
    (exclude_content_ids : option (list Z))
    (filters : option (gmap string (list string)))
    (limit : Z) : result (list Recommendation.t) :=
  let exclude_ids : gset Z := list_to_set (default [] exclude_content_ids) in
  user_embedding ←
    (if negb (features_truthy user_features) then
       user_embedding ← UserRepo.get_user_embedding (user_repository self) (db self)
                          user_id;
       if negb (opt_list_truthy user_embedding)
       then create_user_embedding env (user_repository self)
              (interaction_repository self) (db self) user_id
       else Ok (default [] user_embedding)
     else Ok (default [] (default ∅ user_features !! "embedding")));
  candidates ← _get_recommendation_candidates env self user_id exclude_ids filters;
  scored_candidates ← _score_candidates env self user_id user_embedding candidates;
  final ← _diversify_recommendations self g scored_candidates;
  let final_recommendations := fst final in
  for_ (slice_to final_recommendations limit) [] (fun recommendations rec =>
    content_data ← ContentRepo.get_content_by_id (content_repository self) (db self)
                     (Scored.content_id rec);
    if negb (dict_truthy content_data) then Ok recommendations
    else Ok (recommendations ++ [ {|
           Recommendation.content_id := Scored.content_id rec;
           Recommendation.score := Scored.score rec;
           Recommendation.factors := Scored.factors rec |} ])).

(** [except Exception as e: ... return []] *)
Definition recommend (env : Env) (self : t) (g : Rng) (user_id : Z)
    (user_features : option (gmap string (list Q)))
    (exclude_content_ids : option (list Z))
    (filters : option (gmap string (list string)))
    (limit : Z) : result (list Recommendation.t) :=
  try_except
    (recommend_body env self g user_id user_features exclude_content_ids filters limit)
    (fun e => Ok []).

(** The creator of a content item, when its data resolves. *)
Definition creator_of (self : t) (content_id : Z) : option pyval :=
  match ContentRepo.get_content_by_id (content_repository self) (db self) content_id with
  | Ok content_data =>
      match true_dict content_data with
      | Some content_data => Some (dict_get_none content_data "user_id")
      | None => None
      end
  | Raise _ => None
  end.

(** How many of the items [ids] are by creator [k]. *)
Definition creator_count (self : t) (k : pyval) (ids : list Z) : nat :=
  length (filter (fun content_id => creator_of self content_id = Some k) ids).

(** How many distinct creators the items [ids] have. *)
Definition distinct_creators (self : t) (ids : list Z) : nat :=
  length (remove_dups (omap (creator_of self) ids)).

End HybridRecommender.

(** ** app/api/routes.py *)

Definition string_of_Z (z : Z) : string := NilZero.string_of_int (Z.to_int z).

(** [str(e)] *)
Definition str_exn (e : exn) : string :=
  match e with
  | KeyError k => "'" ++ k ++ "'"
  | TypeError msg => msg
  | ValueError msg => msg
  | ZeroDivisionError => "division by zero"
  | HTTPException status_code detail => string_of_Z status_code ++ ": " ++ detail
  | DatabaseError msg => msg
  end.

Module routes.

Record RecommendationRequest : Type := mkRequest {
  limit : Z;
  exclude_seen : bool;
  content_types : option (list string)
}.

Record ContentItem : Type := mkContentItem {
  content_id : pyval;
  creator_id : pyval;
  content_type : string;
  title : string;
  created_at : pyval;
  score : Q;
  relevance_factors : list string
}.

Record RecommendationResponse : Type := mkResponse {
  user_id : Z;
  recommendations : list ContentItem;
  model_version : string;
  generated_at : Z
}.

(** [Depends(get_recommendation_model)] *)
Definition get_recommendation_model (db : Session) (user_repo : UserRepo.t)
    (content_repo : ContentRepo.t) (interaction_repo : InteractionRepo.t)
  : HybridRecommender.t :=
  HybridRecommender.__init__ db user_repo content_repo interaction_repo.

Definition title_of (content_text : pyval) : result string :=
  if truthy content_text then
    match content_text with
    | VStr s => Ok (substring 0 50 s)
    | _ => Raise (TypeError "object is not subscriptable")
    end
  else Ok "No title".

Definition get_recommendations (env : Env) (g : Rng) (user_id : Z)
    (request : RecommendationRequest) (model : HybridRecommender.t)
    (user_repo : UserRepo.t) (content_repo : ContentRepo.t) (db : Session)
  : result RecommendationResponse :=
  try_except
    (user ← UserRepo.get_user_by_id user_repo db user_id;
     if negb (dict_truthy user) then
       Raise (HTTPException 404 ("User with ID " ++ string_of_Z user_id ++ " not found"))
     else
       let user_features : option (gmap string (list Q)) := None in
       let seen_content_ids : list Z := [] in
       let filters : gmap string (list string) :=
         if opt_list_truthy (content_types request)
         then {[ "content_types" := default [] (content_types request) ]}
         else ∅ in
       recommendations ← HybridRecommender.recommend env model g user_id user_features
                           (Some seen_content_ids) (Some filters) (limit request);
       response_items ← for_ recommendations [] (fun response_items rec =>
         content_data ← ContentRepo.get_content_by_id content_repo db
                          (Recommendation.content_id rec);
         match true_dict content_data with
         | None => Ok response_items
         | Some content_data =>
             let content_type := HybridRecommender.content_type_of content_data in
             content_id ← getitem content_data "content_id";
             creator_id ← getitem content_data "user_id";
             content_text ← getitem content_data "content_text";
             title ← title_of content_text;
             created_at ← getitem content_data "created_at";
             let created_at :=
               if truthy created_at then created_at else VDatetime (utcnow (clock env)) in
             Ok (response_items ++ [ {|
               content_id := content_id;
               creator_id := creator_id;
               content_type := content_type;
               title := title;
               created_at := created_at;
               score := Recommendation.score rec;
               relevance_factors := Recommendation.factors rec |} ])
         end);
       Ok {| user_id := user_id;
             recommendations := response_items;
             model_version := HybridRecommender.version model;
             generated_at := utcnow (clock env) |})
    (fun e =>
       Raise (HTTPException 500 ("Error generating recommendations: " ++ str_exn e))).

End routes.

(** ** Cosine similarity on real vectors

    [sklearn.metrics.pairwise.cosine_similarity] scales each row to unit
    L2 norm, leaving a row of norm zero as it is, and returns the dot
    product of the scaled rows.  Here floats are read as real numbers. *)

Module Cosine.

Fixpoint dot (u v : list R) : R :=
  match u, v with
  | x :: u', y :: v' => (x * y + dot u' v')%R
  | _, _ => 0%R
  end.

Definition norm (v : list R) : R := sqrt (dot v v).

Definition normalize (v : list R) : list R :=
  let n := norm v in
  let n := if Req_dec_T n 0 then 1%R else n in
  map (fun x => (x / n)%R) v.

Definition cosine_similarity (u v : list R) : result R :=
  Ok (dot (normalize u) (normalize v)).

(** [HybridRecommender._calculate_similarity] on real vectors *)
Definition similarity (vec1 vec2 : list R) : R :=
  HybridRecommender._calculate_similarity 0%R cosine_similarity vec1 vec2.

Definition all_zero (v : list R) : Prop := Forall (fun x => x = 0%R) v.

End Cosine.

(** ** The properties under discussion, as stated *)

Module Stated.

(** The first 5 entries of the output are the first 5 entries of the input. *)
Definition top5_of_input (self : HybridRecommender.t) (g : Rng)
    (candidates : list Scored.t) : Prop :=
  forall out g',
    HybridRecommender._diversify_recommendations self g candidates = Ok (out, g') ->
    take 5 out = take 5 candidates.

(** No creator more than twice in the first 50 positions, unless fewer
    than 2 distinct creators exist. *)
Definition creator_cap (self : HybridRecommender.t) (g : Rng)
    (candidates : list Scored.t) : Prop :=
  forall out g',
    HybridRecommender._diversify_recommendations self g candidates = Ok (out, g') ->
    (2 <= HybridRecommender.distinct_creators self (map Scored.content_id candidates))%nat ->
    forall k,
      (HybridRecommender.creator_count self k (map Scored.content_id (take 50 out)) <= 2)%nat.

(** Every component of a sub-vector lies in [-1, 1]. *)
Definition bounded (embedding : list Q) : Prop :=
  Forall (fun x => (-1 <= x)%Q /\ (x <= 1)%Q) embedding.

End Stated.

(** ** Sample data *)

Module Sample.

(** 2025-11-05 00:00:00 UTC *)
Definition now : Z := 20397 * microseconds_per_day.

Definition sample_clock : Clock := {| utcnow := now; today := now |}.

Definition env : Env := {|
  clock := sample_clock;
  cosine_similarity := fun _ _ => Ok 0%Q;
  create_user_embedding := fun _ _ _ _ => Ok [];
  create_content_embedding := fun _ _ _ => Ok []
|}.

(** A generator that never boosts: every draw is 0.5. *)
Definition rng : Rng := {| draws := fun _ => 0.5%Q; pos := 0 |}.

(** A database with user 1, interested in "Technology", and post 1 by
    user 2, tagged "technology", with 1 impression and 5 reactions. *)
Definition post1 : Post.t := {|
  Post.post_id := 1;
  Post.user_id := 2;
  Post.to_user_id := -1;
  Post.original_post_id := None;
  Post.impressions := 1;
  Post.views := 1;
  Post.content_text := Some "hello";
  Post.created_at := Some (minus_days now 40);
  Post.updated_at := Some (minus_days now 40);
  Post.location_name := None;
  Post.location_lat := None;
  Post.location_lng := None;
  Post.is_poll := Some false
|}.

Definition db : Session := {|
  query_user := fun user_id =>
    if user_id =? 1 then Some (User.mk 1 "ada" (Some now)) else None;
  query_user_profile := fun _ => None;
  query_interest_names := fun user_id => if user_id =? 1 then ["Technology"] else [];
  query_friends := fun _ => [];
  query_user_embedding := fun _ _ => None;
  query_similar_users := fun _ _ => [];
  query_post := fun content_id => if content_id =? 1 then Some post1 else None;
  query_reaction_count := fun content_id => if content_id =? 1 then 5 else 0;
  query_comment_count := fun _ => 0;
  query_share_count := fun _ => 0;
  query_hashtags := fun content_id => if content_id =? 1 then ["technology"] else [];
  query_content_embedding := fun _ _ => None;
  query_trending_posts := fun _ _ => [];
  query_posts_by_hashtag := fun hashtag _ =>
    if String.eqb hashtag "technology" then [post1] else [];
  query_interactions := fun _ _ => []
|}.

(** [get_content_by_id(db, 1)] *)
Definition post1_data : pydict := default ∅ (ContentRepository.get_content_by_id db 1).

(** The recommender as the route builds it, on the repositories of
    [app/data/repositories]. *)
Definition recommender : HybridRecommender.t :=
  routes.get_recommendation_model db
    (UserRepository.new sample_clock) (ContentRepository.new sample_clock)
    (InteractionRepository.new sample_clock).

Definition request : routes.RecommendationRequest := {|
  routes.limit := 20;
  routes.exclude_seen := true;
  routes.content_types := None
|}.

(** In-memory repositories: 60 posts; posts 1, 2 and 3 are by creator
    100, post [i > 3] is by creator [100 + i]. *)
Definition creator (content_id : Z) : Z :=
  if content_id <=? 3 then 100 else 100 + content_id.

Definition post_data (content_id : Z) : pydict :=
  list_to_map [
    ("content_id", VInt content_id);
    ("user_id", VInt (creator content_id));
    ("original_post_id", VNone);
    ("created_at", VDatetime (minus_days now content_id));
    ("is_poll", VBool false);
    ("total_reactions", VInt 10);
    ("total_comments", VInt 0);
    ("total_shares", VInt 0);
    ("reaction_count", VInt 10);
    ("comment_count", VInt 0);
    ("share_count", VInt 0);
    ("engagement_score", VInt 10) ].

Definition memory_content_repo : ContentRepo.t := {|
  ContentRepo.get_content_by_id := fun _ content_id =>
    Ok (if (1 <=? content_id) && (content_id <=? 60)
        then Some (post_data content_id) else None);
  ContentRepo.get_content_embedding := fun _ _ => Ok None;
  ContentRepo.get_trending_content := fun _ _ _ => Ok [post_data 2; post_data 7];
  ContentRepo.get_content_by_hashtag := fun _ _ _ => Ok [post_data 1; post_data 2]
|}.

Definition memory_user_repo : UserRepo.t := {|
  UserRepo.get_user_by_id := fun _ _ => Ok None;
  UserRepo.get_user_interests := fun _ _ => Ok ["Technology"];
  UserRepo.get_user_friends := fun _ _ => Ok [];
  UserRepo.get_user_embedding := fun _ _ => Ok None;
  UserRepo.get_users_with_similar_interests := fun _ _ _ => Ok []
|}.

Definition memory_interaction_repo : InteractionRepo.t := {|
  InteractionRepo.get_user_content_interactions := fun _ _ _ => Ok []
|}.

Definition memory_recommender : HybridRecommender.t :=
  HybridRecommender.__init__ db memory_user_repo memory_content_repo
    memory_interaction_repo.

Definition scored (content_id : Z) : Scored.t := {|
  Scored.content_id := content_id;
  Scored.score := 1 - inject_Z content_id / 100;
  Scored.content_similarity := 0;
  Scored.collaborative_score := 0;
  Scored.popularity_score := 0.1;
  Scored.recency_score := 0;
  Scored.factors := ["recommended_for_you"]
|}.

(** Posts 1 to 6, and posts 1 to 28, in descending score order. *)
Definition six : list Scored.t := map (fun i => scored (Z.of_nat i)) (seq 1 6).
Definition twenty_eight : list Scored.t := map (fun i => scored (Z.of_nat i)) (seq 1 28).

(** Posts 1 to 60: more than the creator cap lets through. *)
Definition sixty : list Scored.t := map (fun i => scored (Z.of_nat i)) (seq 1 60).

(** Posts 4 to 9: six creators. *)
Definition later_six : list Scored.t := map (fun i => scored (Z.of_nat i)) (seq 4 6).

Definition candidate (content_id : Z) (popularity : Q) : Candidate.t := {|
  Candidate.content_id := content_id;
  Candidate.content_based_score := 0;
  Candidate.collaborative_score := 0;
  Candidate.popularity_score := popularity;
  Candidate.recency_score := 0;
  Candidate.social_score := None
|}.

End Sample.

(** * Proofs *)

(** ** Fallible computations and loops *)

Lemma bind_Ok {A B} (m : result A) (k : A -> result B) (b : B) :
  bind m k = Ok b -> exists a, m = Ok a /\ k a = Ok b.
Proof.
  destruct m as [a|e]; simpl; intros H; [eauto | discriminate].
Qed.

Lemma bind_Raise {A B} (m : result A) (k : A -> result B) (e : exn) :
  m = Raise e -> bind m k = Raise e.
Proof. intros ->. reflexivity. Qed.

(** Decompose a successful sequence of binds in hypothesis [H]. *)
Ltac inv_bind H :=
  let a := fresh "a" in
  let Ha := fresh "Ha" in
  apply bind_Ok in H; destruct H as (a & Ha & H).

(** A loop that appends one computed item per element is a monadic map. *)
Lemma for_collect {A B} (P : A -> B -> Prop) (body : list B -> A -> result (list B))
    (xs : list A) (acc r : list B) :
  (forall acc x r, body acc x = Ok r -> exists y, r = acc ++ [y] /\ P x y) ->
  for_ xs acc body = Ok r ->
  exists ys, r = acc ++ ys /\ Forall2 P xs ys.
Proof.
  intros Hbody. revert acc. induction xs as [|x xs IH]; intros acc H; simpl in H.
  - injection H as <-. exists []. rewrite app_nil_r. split; [reflexivity | constructor].
  - inv_bind H. apply Hbody in Ha. destruct Ha as (y & -> & Hy).
    apply IH in H. destruct H as (ys & -> & Hys).
    exists (y :: ys). rewrite <- app_assoc. split; [reflexivity |].
    constructor; assumption.
Qed.

(** A loop that appends the image of its element or leaves the list
    alone keeps a sublist of the images of what it walks. *)
Lemma for_select {A B} (f : A -> B) (body : list B -> A -> result (list B))
    (xs : list A) (acc r : list B) :
  (forall acc x r, body acc x = Ok r -> r = acc \/ r = acc ++ [f x]) ->
  for_ xs acc body = Ok r ->
  exists ys, r = acc ++ ys /\ sublist ys (map f xs).
Proof.
  intros Hbody. revert acc. induction xs as [|x xs IH]; intros acc H; simpl in H.
  - injection H as <-. exists []. rewrite app_nil_r. split; [reflexivity | constructor].
  - inv_bind H. apply Hbody in Ha.
    apply IH in H. destruct H as (ys & -> & Hys). destruct Ha as [-> | ->].
    + exists ys. split; [reflexivity |]. by apply sublist_cons.
    + exists (f x :: ys). rewrite <- app_assoc. split; [reflexivity |].
      simpl. by apply sublist_skip.
Qed.

(** ** Sorting by score *)

Lemma insert_desc_perm (x : Scored.t) (l : list Scored.t) :
  HybridRecommender.insert_desc x l ≡ₚ x :: l.
Proof.
  induction l as [|y l IH]; simpl; [reflexivity |].
  destruct (Qle_bool _ _); [reflexivity |].
  rewrite IH. apply Permutation_swap.
Qed.

Lemma sort_desc_perm (l : list Scored.t) : HybridRecommender.sort_desc l ≡ₚ l.
Proof.
  induction l as [|x l IH]; simpl; [reflexivity |].
  rewrite insert_desc_perm. by rewrite IH.
Qed.

(** ** The scorer *)

Lemma calculate_similarity_empty {F} (zero : F) cosine (vec1 vec2 : list F) :
  list_truthy vec1 && list_truthy vec2 = false ->
  HybridRecommender._calculate_similarity zero cosine vec1 vec2 = zero.
Proof.
  unfold HybridRecommender._calculate_similarity.
  destruct vec1, vec2; simpl; intros H; try reflexivity; discriminate.
Qed.

Lemma score_candidate_fresh env db ur cr ir user_embedding c sc :
  let self := HybridRecommender.__init__ db ur cr ir in
  HybridRecommender.score_candidate env self user_embedding c = Ok sc ->
  Scored.content_id sc = Candidate.content_id c /\
  exists content_embedding,
    HybridRecommender.content_embedding_of env self (Candidate.content_id c)
      = Ok content_embedding /\
    Scored.score sc =
      (0.4 * Candidate.collaborative_score c
       + 0.4 * HybridRecommender._calculate_similarity 0%Q (cosine_similarity env)
                 user_embedding content_embedding
       + 0.1 * Candidate.popularity_score c
       + 0.1 * Candidate.recency_score c)%Q.
Proof.
  intros self H. unfold HybridRecommender.score_candidate in H.
  inv_bind H. change (getitem (HybridRecommender.model_weights self) "collaborative")
    with (Ok 0.4%Q : result Q) in H.
  change (getitem (HybridRecommender.model_weights self) "content_based")
    with (Ok 0.4%Q : result Q) in H.
  change (getitem (HybridRecommender.model_weights self) "popularity")
    with (Ok 0.1%Q : result Q) in H.
  change (getitem (HybridRecommender.model_weights self) "recency")
    with (Ok 0.1%Q : result Q) in H.
  simpl in H. injection H as <-. simpl. split; [reflexivity |].
  exists a. split; [assumption |].
  destruct (list_truthy user_embedding && list_truthy a) eqn:E; [reflexivity |].
  by rewrite calculate_similarity_empty.
Qed.

(** C1: every candidate the scorer scores gets the final score
    0.4 * collaborative_score + 0.4 * cosine similarity of the user and
    content embeddings + 0.1 * popularity_score + 0.1 * recency_score, and
    a freshly constructed HybridRecommender holds exactly these four
    weights. *)
Theorem scorer_weighted_sum env db ur cr ir user_id user_embedding candidates scored :
  let self := HybridRecommender.__init__ db ur cr ir in
  HybridRecommender._score_candidates env self user_id user_embedding candidates
    = Ok scored ->
  HybridRecommender.model_weights self
    = list_to_map [("collaborative", 0.4%Q); ("content_based", 0.4%Q);
                   ("popularity", 0.1%Q); ("recency", 0.1%Q)] /\
  exists unsorted,
    scored ≡ₚ unsorted /\
    Forall2 (fun c sc =>
      Scored.content_id sc = Candidate.content_id c /\
      exists content_embedding,
        HybridRecommender.content_embedding_of env self (Candidate.content_id c)
          = Ok content_embedding /\
        Scored.score sc =
          (0.4 * Candidate.collaborative_score c
           + 0.4 * HybridRecommender._calculate_similarity 0%Q (cosine_similarity env)
                     user_embedding content_embedding
           + 0.1 * Candidate.popularity_score c
           + 0.1 * Candidate.recency_score c)%Q)
      candidates unsorted.
Proof.
  intros self H. split; [reflexivity |].
  unfold HybridRecommender._score_candidates in H. inv_bind H. injection H as <-.
  eapply (for_collect (fun c sc =>
            HybridRecommender.score_candidate env self user_embedding c = Ok sc)) in Ha.
  - destruct Ha as (ys & -> & Hys). simpl.
    exists ys. split; [apply sort_desc_perm |].
    eapply Forall2_impl; [exact Hys |].
    intros c sc Hsc. by apply score_candidate_fresh in Hsc.
  - clear. intros acc c r H. inv_bind H. injection H as <-. eauto.
Qed.

Lemma scorer_weighted_sum_witness :
  exists scored,
    HybridRecommender._score_candidates Sample.env Sample.memory_recommender 1 []
      [Sample.candidate 1 0.1; Sample.candidate 2 0.5] = Ok scored /\
    exists unsorted,
      scored ≡ₚ unsorted /\
      Forall2 (fun c sc =>
        Scored.content_id sc = Candidate.content_id c /\
        exists content_embedding,
          HybridRecommender.content_embedding_of Sample.env Sample.memory_recommender
            (Candidate.content_id c) = Ok content_embedding /\
          Scored.score sc =
            (0.4 * Candidate.collaborative_score c
             + 0.4 * HybridRecommender._calculate_similarity 0%Q
                       (cosine_similarity Sample.env) [] content_embedding
             + 0.1 * Candidate.popularity_score c
             + 0.1 * Candidate.recency_score c)%Q)
        [Sample.candidate 1 0.1; Sample.candidate 2 0.5] unsorted.
Proof.
  eexists. split; [reflexivity |].
  apply (scorer_weighted_sum Sample.env Sample.db Sample.memory_user_repo
           Sample.memory_content_repo Sample.memory_interaction_repo 1 []
           [Sample.candidate 1 0.1; Sample.candidate 2 0.5]).
  reflexivity.
Defined.

(** C4: whatever a stage or a data source raises, [recommend] returns a
    list; when the pipeline raises, the list is empty. *)
Theorem recommend_never_raises env self g user_id user_features
    exclude_content_ids filters limit :
  (exists recommendations,
     HybridRecommender.recommend env self g user_id user_features
       exclude_content_ids filters limit = Ok recommendations) /\
  (forall e,
     HybridRecommender.recommend_body env self g user_id user_features
       exclude_content_ids filters limit = Raise e ->
     HybridRecommender.recommend env self g user_id user_features
       exclude_content_ids filters limit = Ok []).
Proof.
  unfold HybridRecommender.recommend, try_except.
  destruct (HybridRecommender.recommend_body _ _ _ _ _ _ _ _) as [l|e0].
  - split; [eauto | discriminate].
  - split; [eauto | reflexivity].
Qed.

Lemma recommend_never_raises_witness :
  HybridRecommender.recommend_body Sample.env Sample.recommender Sample.rng 1
    None None None 20 = Raise (KeyError "engagement_score") /\
  HybridRecommender.recommend Sample.env Sample.recommender Sample.rng 1
    None None None 20 = Ok [].
Proof.
  split; [reflexivity |].
  apply (proj2 (recommend_never_raises Sample.env Sample.recommender Sample.rng 1
                  None None None 20) (KeyError "engagement_score")).
  reflexivity.
Defined.

(** ** Merging the candidate sources *)

Section Unique.

Implicit Types (cs acc : list Candidate.t) (seen : gset Z).

Lemma unique_loop_acc cs seen acc :
  HybridRecommender.unique_loop cs seen acc
  = acc ++ HybridRecommender.unique_loop cs seen [].
Proof.
  revert seen acc. induction cs as [|c cs IH]; intros seen acc; simpl.
  - by rewrite app_nil_r.
  - case_bool_decide.
    + apply IH.
    + rewrite IH. rewrite (IH _ ([] ++ [c])). by rewrite <- app_assoc.
Qed.

Lemma unique_loop_cons c cs seen :
  HybridRecommender.unique_loop (c :: cs) seen []
  = if bool_decide (Candidate.content_id c ∈ seen)
    then HybridRecommender.unique_loop cs seen []
    else c :: HybridRecommender.unique_loop cs ({[Candidate.content_id c]} ∪ seen) [].
Proof.
  simpl. case_bool_decide; [reflexivity |]. by rewrite unique_loop_acc.
Qed.

Lemma unique_loop_sublist cs seen :
  sublist (HybridRecommender.unique_loop cs seen []) cs.
Proof.
  revert seen. induction cs as [|c cs IH]; intros seen.
  - constructor.
  - rewrite unique_loop_cons. case_bool_decide.
    + apply sublist_cons, IH.
    + apply sublist_skip, IH.
Qed.

Lemma unique_loop_unseen cs seen c :
  c ∈ HybridRecommender.unique_loop cs seen [] -> Candidate.content_id c ∉ seen.
Proof.
  revert seen. induction cs as [|c0 cs IH]; intros seen.
  - simpl. by intros ?%not_elem_of_nil.
  - rewrite unique_loop_cons. case_bool_decide as Hseen.
    + apply IH.
    + intros [-> | Hin]%elem_of_cons; [assumption |].
      apply IH in Hin. set_solver.
Qed.

Lemma unique_loop_NoDup cs seen :
  NoDup (map Candidate.content_id (HybridRecommender.unique_loop cs seen [])).
Proof.
  revert seen. induction cs as [|c cs IH]; intros seen.
  - constructor.
  - rewrite unique_loop_cons. case_bool_decide as Hseen; [apply IH |].
    simpl. constructor; [| apply IH].
    intros Hin. apply list_elem_of_In, in_map_iff in Hin.
    destruct Hin as (c' & Heq & Hc'). apply list_elem_of_In, unique_loop_unseen in Hc'.
    rewrite Heq in Hc'. set_solver.
Qed.

Lemma unique_loop_find cs seen (content_id : Z) :
  content_id ∉ seen ->
  find (fun c => Candidate.content_id c =? content_id)
       (HybridRecommender.unique_loop cs seen [])
  = find (fun c => Candidate.content_id c =? content_id) cs.
Proof.
  revert seen. induction cs as [|c cs IH]; intros seen Hid; [reflexivity |].
  rewrite unique_loop_cons. case_bool_decide as Hseen.
  - simpl. destruct (Z.eqb_spec (Candidate.content_id c) content_id) as [<- | Hne].
    + contradiction.
    + by apply IH.
  - simpl. destruct (Z.eqb_spec (Candidate.content_id c) content_id) as [<- | Hne].
    + reflexivity.
    + apply IH. apply not_elem_of_union. split; [| assumption].
      apply not_elem_of_singleton. congruence.
Qed.

End Unique.

Lemma apply_filters_sublist self filters unique r :
  HybridRecommender.apply_filters self filters unique = Ok r -> sublist r unique.
Proof.
  unfold HybridRecommender.apply_filters. intros H.
  apply (for_select (fun c : Candidate.t => c)) in H.
  - destruct H as (ys & -> & Hys). by rewrite map_id in Hys.
  - clear. intros acc c r H. simpl.
    destruct (filters !! "content_types") as [content_types|].
    + inv_bind H. destruct (true_dict a).
      * case_bool_decide; injection H as <-; auto.
      * injection H as <-; auto.
    + injection H as <-; auto.
Qed.

(** C2: the candidates of the four sources are concatenated in the order
    content-based, collaborative, social, trending, and the deduplication
    pass keeps, for each content_id, exactly the first candidate of that
    order, as it is, and drops every later one. *)
Theorem merge_keeps_first env self user_id exclude_ids filters
    content_based_candidates cf_candidates social_candidates trending_candidates :
  HybridRecommender._get_content_based_candidates env self user_id exclude_ids
    = Ok content_based_candidates ->
  HybridRecommender._get_collaborative_candidates env self user_id exclude_ids
    = Ok cf_candidates ->
  HybridRecommender._get_social_candidates env self user_id exclude_ids
    = Ok social_candidates ->
  HybridRecommender._get_trending_candidates env self exclude_ids
    = Ok trending_candidates ->
  let candidates :=
    content_based_candidates ++ cf_candidates ++ social_candidates ++ trending_candidates in
  let unique := HybridRecommender.unique_candidates candidates in
  NoDup (map Candidate.content_id unique) /\
  sublist unique candidates /\
  (forall content_id,
     find (fun c => Candidate.content_id c =? content_id) unique
     = find (fun c => Candidate.content_id c =? content_id) candidates) /\
  (HybridRecommender.filters_truthy filters = false ->
   HybridRecommender._get_recommendation_candidates env self user_id exclude_ids filters
     = Ok unique) /\
  (forall r,
     HybridRecommender._get_recommendation_candidates env self user_id exclude_ids filters
       = Ok r -> sublist r unique).
Proof.
  intros Hcb Hcf Hsoc Htr candidates unique.
  assert (Hrun :
    HybridRecommender._get_recommendation_candidates env self user_id exclude_ids filters
    = if HybridRecommender.filters_truthy filters
      then HybridRecommender.apply_filters self (default ∅ filters) unique
      else Ok unique).
  { unfold HybridRecommender._get_recommendation_candidates.
    rewrite Hcb, Hcf, Hsoc, Htr. simpl.
    unfold unique, candidates. by rewrite <- !app_assoc. }
  split; [apply unique_loop_NoDup |].
  split; [apply unique_loop_sublist |].
  split; [intros content_id; apply unique_loop_find; set_solver |].
  split.
  - intros Hf. by rewrite Hrun, Hf.
  - intros r. rewrite Hrun. destruct (HybridRecommender.filters_truthy filters).
    + apply apply_filters_sublist.
    + by intros [= <-].
Qed.

Lemma merge_keeps_first_witness :
  exists cb cf soc tr,
    HybridRecommender._get_content_based_candidates Sample.env Sample.memory_recommender
      1 ∅ = Ok cb /\
    HybridRecommender._get_collaborative_candidates Sample.env Sample.memory_recommender
      1 ∅ = Ok cf /\
    HybridRecommender._get_social_candidates Sample.env Sample.memory_recommender
      1 ∅ = Ok soc /\
    HybridRecommender._get_trending_candidates Sample.env Sample.memory_recommender
      ∅ = Ok tr /\
    let candidates := cb ++ cf ++ soc ++ tr in
    let unique := HybridRecommender.unique_candidates candidates in
    NoDup (map Candidate.content_id unique) /\
    sublist unique candidates /\
    (forall content_id,
       find (fun c => Candidate.content_id c =? content_id) unique
       = find (fun c => Candidate.content_id c =? content_id) candidates) /\
    (HybridRecommender.filters_truthy None = false ->
     HybridRecommender._get_recommendation_candidates Sample.env Sample.memory_recommender
       1 ∅ None = Ok unique) /\
    (forall r,
       HybridRecommender._get_recommendation_candidates Sample.env
         Sample.memory_recommender 1 ∅ None = Ok r -> sublist r unique).
Proof.
  eexists _, _, _, _.
  split; [vm_compute; reflexivity |].
  split; [vm_compute; reflexivity |].
  split; [vm_compute; reflexivity |].
  split; [vm_compute; reflexivity |].
  apply (merge_keeps_first Sample.env Sample.memory_recommender 1 ∅ None);
    vm_compute; reflexivity.
Defined.

(** ** The diversifier *)

Section Diversifier.

Context (self : HybridRecommender.t).

#[local] Arguments Nat.leb : simpl never.
#[local] Arguments Nat.ltb : simpl never.

Implicit Types (cs d div : list Scored.t) (k : pyval) (ids : list Z).

#[local] Abbreviation ids_of := (map Scored.content_id).
#[local] Abbreviation count := (HybridRecommender.creator_count self).

Lemma creator_count_app k ids1 ids2 :
  count k (ids1 ++ ids2) = (count k ids1 + count k ids2)%nat.
Proof.
  unfold HybridRecommender.creator_count. by rewrite filter_app, length_app.
Qed.

Lemma creator_count_one k (content_id : Z) :
  count k [content_id]
  = if decide (HybridRecommender.creator_of self content_id = Some k) then 1%nat else 0%nat.
Proof.
  unfold HybridRecommender.creator_count. rewrite filter_cons, filter_nil.
  by case_decide.
Qed.

Lemma creator_count_perm k ids1 ids2 :
  ids1 ≡ₚ ids2 -> count k ids1 = count k ids2.
Proof.
  intros H. unfold HybridRecommender.creator_count. by rewrite H.
Qed.

Lemma as_key_Ok (v key : pyval) : as_key v = Ok key -> key = v.
Proof. destruct v; simpl; intros H; by inversion H. Qed.

Lemma creator_of_lookup (c : Scored.t) (a : option pydict) (content_data : pydict) :
  ContentRepo.get_content_by_id (HybridRecommender.content_repository self)
    (HybridRecommender.db self) (Scored.content_id c) = Ok a ->
  true_dict a = Some content_data ->
  HybridRecommender.creator_of self (Scored.content_id c)
  = Some (dict_get_none content_data "user_id").
Proof.
  intros Ha Hdata. unfold HybridRecommender.creator_of. by rewrite Ha, Hdata.
Qed.

(** Admitting [c], by creator [key], keeps the counters in step. *)
Lemma creators_seen_admit (seen : pyval -> Z) div (c : Scored.t) key :
  (forall k, seen k = Z.of_nat (count k (ids_of div))) ->
  HybridRecommender.creator_of self (Scored.content_id c) = Some key ->
  forall k,
    <[key := seen key + 1]> seen k = Z.of_nat (count k (ids_of (div ++ [c]))).
Proof.
  intros Hseen Hcreator k. rewrite map_app, creator_count_app. simpl.
  rewrite creator_count_one, Hcreator.
  destruct (decide (key = k)) as [<- | Hne].
  - rewrite fn_lookup_insert, decide_True by reflexivity. rewrite Hseen. lia.
  - rewrite fn_lookup_insert_ne by assumption.
    rewrite decide_False by congruence. rewrite Hseen. lia.
Qed.

(** The first loop: what it admits is a sublist of what it walks, it
    counts creators as it admits, and it never goes past 2 per creator or
    past 50 items. *)
Lemma creator_cap_loop_spec cs (seen : pyval -> Z) div d :
  HybridRecommender.creator_cap_loop self cs seen div = Ok d ->
  (forall k, seen k = Z.of_nat (count k (ids_of div))) ->
  (forall k, (count k (ids_of div) <= 2)%nat) ->
  (length div < 50)%nat ->
  exists admitted,
    d = div ++ admitted /\ sublist admitted cs /\
    (forall k, (count k (ids_of d) <= 2)%nat) /\
    (length d <= 50)%nat.
Proof.
  revert seen div. induction cs as [|c cs IH]; intros seen div H Hseen Hcap Hlen.
  - simpl in H. injection H as <-. exists []. rewrite app_nil_r.
    repeat split; [constructor | assumption | lia].
  - simpl in H. inv_bind H.
    destruct (true_dict a) as [content_data|] eqn:Hdata.
    + inv_bind H. apply as_key_Ok in Ha0. subst a0.
      pose proof (creator_of_lookup c a content_data Ha Hdata) as Hcreator.
      set (key := dict_get_none content_data "user_id") in *.
      cbv zeta in H. fold key in H.
      destruct (seen key <? 2) eqn:Hadmit; simpl in H.
      * apply Z.ltb_lt in Hadmit.
        pose proof (creators_seen_admit seen div c key Hseen Hcreator) as Hseen'.
        assert (Hcap' : forall k, (count k (ids_of (div ++ [c])) <= 2)%nat).
        { intros k. specialize (Hseen' k).
          destruct (decide (key = k)) as [<- | Hne].
          - rewrite fn_lookup_insert in Hseen'. lia.
          - rewrite map_app, creator_count_app. simpl.
            rewrite creator_count_one, Hcreator, decide_False by congruence.
            specialize (Hcap k). lia. }
        destruct (50 <=? length (div ++ [c]))%nat eqn:Hfull.
        -- injection H as <-. exists [c]. repeat split.
           ++ apply sublist_skip, sublist_nil_l.
           ++ assumption.
           ++ rewrite length_app. simpl. lia.
        -- apply Nat.leb_gt in Hfull.
           apply IH in H; [| assumption | assumption | assumption].
           destruct H as (admitted & -> & Hsub & Hcap2 & Hlen2).
           exists (c :: admitted). rewrite <- app_assoc in *. simpl in *.
           repeat split; [by apply sublist_skip | assumption | assumption].
      * assert (Hfull : (50 <=? length div)%nat = false) by (apply Nat.leb_gt; lia).
        rewrite Hfull in H.
        apply IH in H; [| assumption | assumption | assumption].
        destruct H as (admitted & -> & Hsub & Hcap2 & Hlen2).
        exists admitted. repeat split; [by apply sublist_cons | assumption | assumption].
    + apply IH in H; [| assumption | assumption | assumption].
      destruct H as (admitted & -> & Hsub & Hcap2 & Hlen2).
      exists admitted. repeat split; [by apply sublist_cons | assumption | assumption].
Qed.

Lemma creator_cap_loop_start cs d :
  HybridRecommender.creator_cap_loop self cs (fun _ => 0) [] = Ok d ->
  sublist d cs /\ (forall k, (count k (ids_of d) <= 2)%nat) /\ (length d <= 50)%nat.
Proof.
  intros H. apply creator_cap_loop_spec in H.
  - destruct H as (admitted & -> & Hsub & Hcap & Hlen). simpl in *. auto.
  - intros k. reflexivity.
  - intros k. simpl. unfold HybridRecommender.creator_count. simpl. lia.
  - simpl. lia.
Qed.

(** When the first [p] candidates all resolve and stay within the cap,
    the first loop admits them all, in order. *)
Lemma creator_cap_loop_prefix p rest (seen : pyval -> Z) div d :
  HybridRecommender.creator_cap_loop self (p ++ rest) seen div = Ok d ->
  (forall k, seen k = Z.of_nat (count k (ids_of div))) ->
  (forall c, c ∈ p -> HybridRecommender.creator_of self (Scored.content_id c) <> None) ->
  (forall k, (count k (ids_of div) + count k (ids_of p) <= 2)%nat) ->
  (length div + length p < 50)%nat ->
  exists s, d = div ++ p ++ s /\ (rest = [] -> s = []).
Proof.
  revert seen div. induction p as [|c p IH]; intros seen div H Hseen Hres Hcap Hlen.
  - simpl in H. apply creator_cap_loop_spec in H.
    + destruct H as (admitted & -> & Hsub & _). exists admitted.
      split; [reflexivity |]. intros ->. by apply sublist_nil_r in Hsub.
    + assumption.
    + intros k. specialize (Hcap k). lia.
    + simpl in Hlen. lia.
  - simpl in H. inv_bind H.
    destruct (true_dict a) as [content_data|] eqn:Hdata.
    + inv_bind H. apply as_key_Ok in Ha0. subst a0.
      pose proof (creator_of_lookup c a content_data Ha Hdata) as Hcreator.
      set (key := dict_get_none content_data "user_id") in *.
      cbv zeta in H. fold key in H.
      assert (Hsplit : forall k,
        count k (ids_of (c :: p))
        = ((if decide (HybridRecommender.creator_of self (Scored.content_id c) = Some k)
            then 1 else 0) + count k (ids_of p))%nat).
      { intros k. change (ids_of (c :: p)) with ([Scored.content_id c] ++ ids_of p).
        by rewrite creator_count_app, creator_count_one. }
      assert (Hadmit : (seen key <? 2) = true).
      { apply Z.ltb_lt. specialize (Hcap key). rewrite Hsplit, Hcreator in Hcap.
        rewrite decide_True in Hcap by reflexivity. rewrite Hseen. lia. }
      rewrite Hadmit in H. simpl in H.
      assert (Hfull : (50 <=? length (div ++ [c]))%nat = false).
      { apply Nat.leb_gt. rewrite length_app. simpl in *. lia. }
      rewrite Hfull in H.
      apply IH in H.
      * destruct H as (s & -> & Hs). exists s. rewrite <- app_assoc. auto.
      * by apply creators_seen_admit.
      * intros c' Hc'. apply Hres. apply elem_of_cons. by right.
      * intros k. specialize (Hcap k). rewrite Hsplit in Hcap.
        rewrite map_app, creator_count_app. simpl. rewrite creator_count_one. lia.
      * rewrite length_app. simpl in *. lia.
    + exfalso. apply (Hres c); [apply elem_of_cons; by left |].
      unfold HybridRecommender.creator_of. by rewrite Ha, Hdata.
Qed.

Lemma Scored_eqb_refl (a : Scored.t) : Scored.eqb a a = true.
Proof.
  unfold Scored.eqb. rewrite Z.eqb_refl, bool_decide_true by reflexivity.
  assert (Hq : forall q, Qeq_bool q q = true) by (intros q; apply Qeq_bool_iff; reflexivity).
  by rewrite !Hq.
Qed.

Lemma not_in_true (c : Scored.t) d : HybridRecommender.not_in c d = true -> c ∉ d.
Proof.
  unfold HybridRecommender.not_in. intros H Hin.
  apply negb_true_iff in H. apply not_true_iff_false in H. apply H.
  apply existsb_exists. exists c. split; [by apply list_elem_of_In | apply Scored_eqb_refl].
Qed.

Lemma not_in_false (c : Scored.t) d : c ∈ d -> HybridRecommender.not_in c d = false.
Proof.
  intros Hin. destruct (HybridRecommender.not_in c d) eqn:E; [| reflexivity].
  by apply not_in_true in E.
Qed.

(** The second loop appends, in original order, candidates that are not
    yet in the list. *)
Lemma backfill_loop_spec cs d :
  exists extra,
    HybridRecommender.backfill_loop cs d = d ++ extra /\ sublist extra cs /\
    (forall c, c ∈ extra -> c ∉ d).
Proof.
  revert d. induction cs as [|c cs IH]; intros d; simpl.
  - exists []. rewrite app_nil_r. split_and!; [reflexivity | constructor |].
    intros c' Hc'. by apply not_elem_of_nil in Hc'.
  - destruct (HybridRecommender.not_in c d) eqn:Hnew.
    + destruct (50 <=? length (d ++ [c]))%nat.
      * exists [c]. split_and!; [reflexivity | apply sublist_skip, sublist_nil_l |].
        intros c' ->%list_elem_of_singleton. by apply not_in_true.
      * destruct (IH (d ++ [c])) as (extra & -> & Hsub & Hnot).
        exists (c :: extra). rewrite <- app_assoc.
        split_and!; [reflexivity | by apply sublist_skip |].
        intros c' [-> | Hc']%elem_of_cons; [by apply not_in_true |].
        apply Hnot in Hc'. intros Hd. apply Hc'. apply elem_of_app. by left.
    + destruct (50 <=? length d)%nat.
      * exists []. rewrite app_nil_r. split_and!; [reflexivity | apply sublist_nil_l |].
        intros c' Hc'. by apply not_elem_of_nil in Hc'.
      * destruct (IH d) as (extra & -> & Hsub & Hnot).
        exists extra. split_and!; [reflexivity | by apply sublist_cons | assumption].
Qed.

Lemma backfill_loop_length cs d :
  (length d < 50)%nat -> (length (HybridRecommender.backfill_loop cs d) <= 50)%nat.
Proof.
  revert d. induction cs as [|c cs IH]; intros d Hlen; simpl; [lia |].
  destruct (HybridRecommender.not_in c d).
  - destruct (50 <=? length (d ++ [c]))%nat eqn:Hfull.
    + rewrite length_app. simpl. lia.
    + apply Nat.leb_gt in Hfull. by apply IH.
  - destruct (50 <=? length d)%nat; [lia | by apply IH].
Qed.

Lemma backfill_loop_all_in cs d :
  (forall c, c ∈ cs -> c ∈ d) -> HybridRecommender.backfill_loop cs d = d.
Proof.
  revert d. induction cs as [|c cs IH]; intros d Hin; simpl; [reflexivity |].
  rewrite not_in_false by (apply Hin, elem_of_cons; by left).
  destruct (50 <=? length d)%nat; [reflexivity |].
  apply IH. intros c' Hc'. apply Hin, elem_of_cons. by right.
Qed.

Lemma boost_loop_ids cs (g : Rng) :
  ids_of (fst (HybridRecommender.boost_loop cs g)) = ids_of cs.
Proof.
  revert g. induction cs as [|c cs IH]; intros g; simpl; [reflexivity |].
  destruct (Qgtb 0.3 (draws g (pos g))).
  - unfold uniform, random. simpl.
    match goal with |- context [HybridRecommender.boost_loop cs ?g0] =>
      specialize (IH g0); destruct (HybridRecommender.boost_loop cs g0) end.
    simpl in *. by rewrite IH.
  - match goal with |- context [HybridRecommender.boost_loop cs ?g0] =>
      specialize (IH g0); destruct (HybridRecommender.boost_loop cs g0) end.
    simpl in *. by rewrite IH.
Qed.

Lemma diversified_of_inv cs d :
  HybridRecommender.diversified_of self cs = Ok d ->
  exists admitted,
    HybridRecommender.creator_cap_loop self cs (fun _ => 0) [] = Ok admitted /\
    d = if (length admitted <? 50)%nat
        then HybridRecommender.backfill_loop cs admitted else admitted.
Proof.
  unfold HybridRecommender.diversified_of. intros H. inv_bind H.
  exists a. split; [assumption |].
  destruct (length a <? 50)%nat; by injection H as <-.
Qed.

Lemma diversify_inv (g g' : Rng) cs out :
  HybridRecommender._diversify_recommendations self g cs = Ok (out, g') ->
  exists d,
    HybridRecommender.diversified_of self cs = Ok d /\
    out = take 5 d
          ++ HybridRecommender.sort_desc (fst (HybridRecommender.boost_loop (drop 5 d) g)).
Proof.
  unfold HybridRecommender._diversify_recommendations. intros H. inv_bind H.
  exists a. split; [assumption |].
  destruct (HybridRecommender.boost_loop (drop 5 a) g) as [rest g0].
  simpl in *. by injection H as <- _.
Qed.

Lemma diversify_ids (g g' : Rng) cs out d :
  HybridRecommender.diversified_of self cs = Ok d ->
  out = take 5 d
        ++ HybridRecommender.sort_desc (fst (HybridRecommender.boost_loop (drop 5 d) g)) ->
  ids_of out ≡ₚ ids_of d.
Proof.
  intros _ ->. rewrite map_app.
  rewrite (Permutation_map Scored.content_id (sort_desc_perm _)).
  rewrite boost_loop_ids, <- map_app. by rewrite take_drop.
Qed.

Lemma diversify_take5 (g : Rng) d :
  take 5 (take 5 d
          ++ HybridRecommender.sort_desc (fst (HybridRecommender.boost_loop (drop 5 d) g)))
  = take 5 d.
Proof.
  destruct (decide (length d <= 5)%nat) as [Hshort | Hlong].
  - rewrite (drop_ge d 5) by assumption. simpl. rewrite app_nil_r.
    rewrite take_take. by rewrite Nat.min_id.
  - apply take_app_length'. rewrite length_take. lia.
Qed.

End Diversifier.

(** C6, amended: no creator appears more than 2 times among the
    candidates the creator-cap pass admits; when that pass admits 50 the
    output is made of exactly these, so no creator appears more than 2
    times in its first 50 positions; when it admits fewer than 50, however
    many distinct creators there are, the backfill appends the candidates
    not yet admitted, in original order, until 50 or exhaustion. *)
Theorem creator_cap_until_backfill self g candidates out g' :
  HybridRecommender._diversify_recommendations self g candidates = Ok (out, g') ->
  exists admitted extra,
    HybridRecommender.creator_cap_loop self candidates (fun _ => 0) [] = Ok admitted /\
    (forall k,
       (HybridRecommender.creator_count self k (map Scored.content_id admitted) <= 2)%nat) /\
    sublist admitted candidates /\
    sublist extra candidates /\
    (forall c, c ∈ extra -> c ∉ admitted) /\
    map Scored.content_id out ≡ₚ map Scored.content_id (admitted ++ extra) /\
    (length out <= 50)%nat /\
    ((length admitted < 50)%nat ->
     admitted ++ extra = HybridRecommender.backfill_loop candidates admitted) /\
    (length admitted = 50%nat ->
     extra = [] /\
     forall k,
       (HybridRecommender.creator_count self k (map Scored.content_id (take 50 out))
        <= 2)%nat).
Proof.
  intros H. apply diversify_inv in H. destruct H as (d & Hd & Hout).
  pose proof (diversify_ids self g g' candidates out d Hd Hout) as Hperm.
  apply diversified_of_inv in Hd. destruct Hd as (admitted & Hadm & Hd).
  destruct (creator_cap_loop_start self candidates admitted Hadm) as (Hsub & Hcap & Hlen).
  assert (Hlen_out : length out = length d).
  { rewrite <- (length_map Scored.content_id out), <- (length_map Scored.content_id d).
    by apply Permutation_length. }
  destruct (length admitted <? 50)%nat eqn:Hlt.
  - apply Nat.ltb_lt in Hlt.
    destruct (backfill_loop_spec candidates admitted) as (extra & Hback & Hsub' & Hnot).
    exists admitted, extra. rewrite <- Hback, <- Hd.
    split_and!; try assumption.
    + rewrite Hlen_out, Hd. by apply backfill_loop_length.
    + reflexivity.
    + lia.
  - apply Nat.ltb_ge in Hlt. subst d.
    exists admitted, []. rewrite app_nil_r.
    split_and!; try assumption.
    + apply sublist_nil_l.
    + intros c Hc. by apply not_elem_of_nil in Hc.
    + lia.
    + lia.
    + intros _. split; [reflexivity |]. intros k.
      rewrite take_ge by lia.
      rewrite (creator_count_perm self k _ _ Hperm). apply Hcap.
Qed.

Lemma creator_cap_until_backfill_witness :
  exists out g',
    HybridRecommender._diversify_recommendations Sample.memory_recommender Sample.rng
      Sample.sixty = Ok (out, g') /\
    length out = 50%nat /\
    forall k,
      (HybridRecommender.creator_count Sample.memory_recommender k
         (map Scored.content_id (take 50 out)) <= 2)%nat.
Proof.
  eexists _, _. split; [vm_compute; reflexivity |]. split; [reflexivity |].
  edestruct (creator_cap_until_backfill Sample.memory_recommender Sample.rng Sample.sixty)
    as (admitted & extra & Hadmitted & _ & _ & _ & _ & _ & _ & _ & Hfull);
    [vm_compute; reflexivity |].
  vm_compute in Hadmitted. injection Hadmitted as <-.
  apply Hfull. reflexivity.
Defined.

(** C6, as stated, fails: of 28 candidates by 26 distinct creators, the
    first three by one creator, all three of that creator's posts are in
    the output. *)
Lemma creator_cap_counterexample :
  ~ Stated.creator_cap Sample.memory_recommender Sample.rng Sample.twenty_eight.
Proof.
  intros H. unfold Stated.creator_cap in H.
  specialize (H _ _ ltac:(vm_compute; reflexivity)).
  specialize (H ltac:(vm_compute; lia) (VInt 100)).
  vm_compute in H. lia.
Qed.

(** C7, amended: the first 5 entries of the output are the first 5
    entries of the list built by the creator cap and the backfill, in the
    same order and with their scores untouched; they are the first 5
    entries of the input whenever each of those has content data that
    resolves and no creator has more than 2 of them. *)
Theorem top5_of_diversified self g candidates out g' :
  HybridRecommender._diversify_recommendations self g candidates = Ok (out, g') ->
  exists diversified,
    HybridRecommender.diversified_of self candidates = Ok diversified /\
    take 5 out = take 5 diversified /\
    ((forall c, c ∈ take 5 candidates ->
        HybridRecommender.creator_of self (Scored.content_id c) <> None) ->
     (forall k,
        (HybridRecommender.creator_count self k
           (map Scored.content_id (take 5 candidates)) <= 2)%nat) ->
     take 5 out = take 5 candidates).
Proof.
  intros H. apply diversify_inv in H. destruct H as (d & Hd & ->).
  exists d. split; [assumption |]. rewrite diversify_take5.
  split; [reflexivity |]. intros Hres Hcap.
  apply diversified_of_inv in Hd. destruct Hd as (admitted & Hadm & Hd).
  rewrite <- (take_drop 5 candidates) in Hadm.
  apply creator_cap_loop_prefix in Hadm.
  - destruct Hadm as (s & Hadmitted & Hs). simpl in Hadmitted.
    destruct (backfill_loop_spec candidates admitted) as (extra & Hback & _).
    destruct (decide (length (take 5 candidates) = 5%nat)) as [Hfive | Hshort].
    + assert (Hpre : exists tail, d = take 5 candidates ++ tail).
      { destruct (length admitted <? 50)%nat.
        - exists (s ++ extra). by rewrite Hd, Hback, Hadmitted, <- app_assoc.
        - exists s. by rewrite Hd, Hadmitted. }
      destruct Hpre as (tail & ->). by apply take_app_length'.
    + rewrite length_take in Hshort.
      assert (Hall : take 5 candidates = candidates) by (apply take_ge; lia).
      assert (Hnil : drop 5 candidates = []) by (apply drop_ge; lia).
      rewrite (Hs Hnil), app_nil_r, Hall in Hadmitted. subst admitted.
      rewrite (backfill_loop_all_in candidates candidates) in Hd by auto.
      assert (d = candidates) as -> by (by destruct (length candidates <? 50)%nat).
      reflexivity.
  - intros k. reflexivity.
  - assumption.
  - intros k. specialize (Hcap k).
    unfold HybridRecommender.creator_count in *. simpl. lia.
  - simpl. rewrite length_take. lia.
Qed.

Lemma top5_of_diversified_witness :
  exists out g',
    HybridRecommender._diversify_recommendations Sample.memory_recommender Sample.rng
      Sample.later_six = Ok (out, g') /\
    take 5 out = take 5 Sample.later_six.
Proof.
  eexists _, _. split; [vm_compute; reflexivity |].
  edestruct (top5_of_diversified Sample.memory_recommender Sample.rng Sample.later_six)
    as (diversified & _ & _ & Hinput); [vm_compute; reflexivity |].
  apply Hinput.
  - intros c Hc. vm_compute in Hc.
    repeat (apply elem_of_cons in Hc; destruct Hc as [-> | Hc]); try discriminate.
    by apply not_elem_of_nil in Hc.
  - intros k. unfold HybridRecommender.creator_count. vm_compute take.
    change (map Scored.content_id _) with [4; 5; 6; 7; 8].
    rewrite !filter_cons, filter_nil.
    change (HybridRecommender.creator_of Sample.memory_recommender 4) with (Some (VInt 104)).
    change (HybridRecommender.creator_of Sample.memory_recommender 5) with (Some (VInt 105)).
    change (HybridRecommender.creator_of Sample.memory_recommender 6) with (Some (VInt 106)).
    change (HybridRecommender.creator_of Sample.memory_recommender 7) with (Some (VInt 107)).
    change (HybridRecommender.creator_of Sample.memory_recommender 8) with (Some (VInt 108)).
    repeat case_decide; simpl; try lia; congruence.
Defined.

(** C7, as stated, fails: when the first three candidates are by one
    creator, the third is skipped and the sixth takes the fifth place. *)
Lemma top5_counterexample :
  ~ Stated.top5_of_input Sample.memory_recommender Sample.rng Sample.six.
Proof.
  intros H. unfold Stated.top5_of_input in H.
  specialize (H _ _ ltac:(vm_compute; reflexivity)).
  vm_compute in H. discriminate.
Qed.

(** ** Distinct content ids, from the merge to the response *)

Lemma sublist_map {A B} (f : A -> B) (l1 l2 : list A) :
  sublist l1 l2 -> sublist (map f l1) (map f l2).
Proof. intros H. change (sublist (f <$> l1) (f <$> l2)). by apply fmap_sublist. Qed.

Lemma NoDup_map_inj {A B} (f : A -> B) (l : list A) (x y : A) :
  NoDup (map f l) -> x ∈ l -> y ∈ l -> f x = f y -> x = y.
Proof.
  induction l as [|a l IH]; intros Hnd Hx Hy Heq.
  - by apply not_elem_of_nil in Hx.
  - simpl in Hnd. apply NoDup_cons in Hnd. destruct Hnd as [Hnotin Hnd].
    assert (Hin : forall z, z ∈ l -> f z ∈ map f l).
    { intros z Hz. change (f z ∈ f <$> l). by apply list_elem_of_fmap_2. }
    apply elem_of_cons in Hx. apply elem_of_cons in Hy.
    destruct Hx as [-> | Hx], Hy as [-> | Hy].
    + reflexivity.
    + exfalso. apply Hnotin. rewrite Heq. by apply Hin.
    + exfalso. apply Hnotin. rewrite <- Heq. by apply Hin.
    + by apply IH.
Qed.

Lemma candidates_NoDup env self user_id exclude_ids filters r :
  HybridRecommender._get_recommendation_candidates env self user_id exclude_ids filters
    = Ok r ->
  NoDup (map Candidate.content_id r).
Proof.
  unfold HybridRecommender._get_recommendation_candidates. intros H.
  inv_bind H. inv_bind H. inv_bind H. inv_bind H. cbv zeta in H.
  destruct (HybridRecommender.filters_truthy filters).
  - apply apply_filters_sublist in H.
    eapply sublist_NoDup; [apply unique_loop_NoDup | by apply sublist_map].
  - injection H as <-. apply unique_loop_NoDup.
Qed.

Lemma score_candidate_id env self user_embedding c sc :
  HybridRecommender.score_candidate env self user_embedding c = Ok sc ->
  Scored.content_id sc = Candidate.content_id c.
Proof.
  unfold HybridRecommender.score_candidate. intros H.
  inv_bind H. inv_bind H. inv_bind H. inv_bind H. inv_bind H.
  by injection H as <-.
Qed.

Lemma score_candidates_ids env self user_id user_embedding candidates scored :
  HybridRecommender._score_candidates env self user_id user_embedding candidates
    = Ok scored ->
  map Scored.content_id scored ≡ₚ map Candidate.content_id candidates.
Proof.
  unfold HybridRecommender._score_candidates. intros H. inv_bind H. injection H as <-.
  eapply (for_collect (fun c sc => Scored.content_id sc = Candidate.content_id c)) in Ha.
  - destruct Ha as (ys & -> & Hys). simpl.
    rewrite (Permutation_map Scored.content_id (sort_desc_perm ys)).
    induction Hys as [|c sc cs scs Hid _ IH]; simpl; [reflexivity |].
    by rewrite Hid, IH.
  - clear. intros acc c r H. inv_bind H. injection H as <-.
    apply score_candidate_id in Ha. eauto.
Qed.

Lemma diversified_NoDup self cs d :
  HybridRecommender.diversified_of self cs = Ok d ->
  NoDup (map Scored.content_id cs) ->
  NoDup (map Scored.content_id d).
Proof.
  intros H Hnd. apply diversified_of_inv in H. destruct H as (admitted & Hadm & ->).
  destruct (creator_cap_loop_start self cs admitted Hadm) as (Hsub & _ & _).
  assert (Hadm_nd : NoDup (map Scored.content_id admitted)).
  { eapply sublist_NoDup; [exact Hnd | by apply sublist_map]. }
  destruct (length admitted <? 50)%nat; [| assumption].
  destruct (backfill_loop_spec cs admitted) as (extra & -> & Hsub' & Hnot).
  rewrite map_app. apply NoDup_app. split_and!.
  - assumption.
  - intros i Hi Hi'.
    change (i ∈ Scored.content_id <$> admitted) in Hi.
    change (i ∈ Scored.content_id <$> extra) in Hi'.
    apply list_elem_of_fmap in Hi. destruct Hi as (x & -> & Hx).
    apply list_elem_of_fmap in Hi'. destruct Hi' as (y & Heq & Hy).
    assert (x = y) as ->.
    { apply (NoDup_map_inj Scored.content_id cs); try assumption.
      - by eapply elem_of_sublist.
      - by eapply elem_of_sublist. }
    by apply (Hnot y).
  - eapply sublist_NoDup; [exact Hnd | by apply sublist_map].
Qed.

Lemma slice_to_sublist {A} (l : list A) (n : Z) : sublist (slice_to l n) l.
Proof. unfold slice_to. destruct (0 <=? n); apply sublist_take. Qed.

(** C10: the content ids of the recommendations that [recommend] returns
    are pairwise distinct. *)
Theorem recommend_distinct_ids env self g user_id user_features exclude_content_ids
    filters limit recommendations :
  HybridRecommender.recommend env self g user_id user_features exclude_content_ids
    filters limit = Ok recommendations ->
  NoDup (map Recommendation.content_id recommendations).
Proof.
  unfold HybridRecommender.recommend, try_except. intros H.
  destruct (HybridRecommender.recommend_body _ _ _ _ _ _ _ _) as [l|e] eqn:Hbody;
    injection H as <-; [| constructor].
  unfold HybridRecommender.recommend_body in Hbody. cbv zeta in Hbody.
  inv_bind Hbody. clear Ha. inv_bind Hbody. inv_bind Hbody. inv_bind Hbody.
  destruct a2 as [final g'].
  apply candidates_NoDup in Ha. apply score_candidates_ids in Ha0.
  rewrite <- Ha0 in Ha.
  pose proof Ha1 as Hdiv. apply diversify_inv in Hdiv. destruct Hdiv as (d & Hd & Hout).
  pose proof (diversify_ids self g g' a1 final d Hd Hout) as Hperm.
  apply (diversified_NoDup self a1 d Hd) in Ha. rewrite <- Hperm in Ha.
  simpl in Hbody.
  apply (for_select (fun rec : Scored.t =>
           {| Recommendation.content_id := Scored.content_id rec;
              Recommendation.score := Scored.score rec;
              Recommendation.factors := Scored.factors rec |})) in Hbody.
  - destruct Hbody as (ys & -> & Hys). simpl.
    apply (sublist_map Recommendation.content_id) in Hys.
    rewrite map_map in Hys. simpl in Hys.
    eapply sublist_NoDup; [exact Ha |].
    etrans; [exact Hys |]. apply sublist_map, slice_to_sublist.
  - clear. intros acc rec r H. inv_bind H.
    destruct (negb (dict_truthy a)); injection H as <-; auto.
Qed.

Lemma recommend_distinct_ids_witness :
  exists recommendations,
    HybridRecommender.recommend Sample.env Sample.memory_recommender Sample.rng 1
      None None None 20 = Ok recommendations /\
    map Recommendation.content_id recommendations = [1; 2; 7] /\
    NoDup (map Recommendation.content_id recommendations).
Proof.
  eexists. split; [vm_compute; reflexivity |].
  split; [reflexivity |].
  apply (recommend_distinct_ids Sample.env Sample.memory_recommender Sample.rng 1
           None None None 20).
  vm_compute. reflexivity.
Defined.

(** ** Cosine similarity *)

Section CosineFacts.

Import Cosine.
#[local] Open Scope R_scope.

Implicit Types (u v : list R).

Lemma dot_comm u v : dot u v = dot v u.
Proof.
  revert v. induction u as [|x u IH]; intros [|y v]; simpl; try reflexivity.
  rewrite IH. ring.
Qed.

Lemma dot_nonneg v : 0 <= dot v v.
Proof. induction v as [|x v IH]; simpl; [lra | nra]. Qed.

Lemma dot_self_zero v : dot v v = 0 -> all_zero v.
Proof.
  induction v as [|x v IH]; simpl; intros H; [constructor |].
  pose proof (dot_nonneg v). constructor; [nra |]. apply IH. nra.
Qed.

Lemma dot_zero_r u v : all_zero v -> dot u v = 0.
Proof.
  intros Hz. revert u. induction Hz as [|y v -> _ IH]; intros [|x u]; simpl;
    try reflexivity.
  rewrite IH. ring.
Qed.

Lemma dot_zero_l u v : all_zero u -> dot u v = 0.
Proof. intros Hz. rewrite dot_comm. by apply dot_zero_r. Qed.

Lemma dot_scale (a b : R) u v :
  a <> 0 -> b <> 0 ->
  dot (map (fun x => x / a) u) (map (fun x => x / b) v) = dot u v / (a * b).
Proof.
  intros Ha Hb. revert v. induction u as [|x u IH]; intros [|y v]; simpl;
    try (field; auto).
  rewrite IH. field. auto.
Qed.

Lemma dot_opp_r u v : dot u (map Ropp v) = - dot u v.
Proof.
  revert v. induction u as [|x u IH]; intros [|y v]; simpl; try lra.
  rewrite IH. ring.
Qed.

Lemma dot_opp_opp v : dot (map Ropp v) (map Ropp v) = dot v v.
Proof. induction v as [|x v IH]; simpl; [reflexivity |]. rewrite IH. ring. Qed.

Lemma norm_pos v : ~ all_zero v -> 0 < norm v.
Proof.
  intros Hnz. unfold norm. apply sqrt_lt_R0.
  destruct (dot_nonneg v) as [Hlt | Heq]; [assumption |].
  exfalso. apply Hnz. by apply dot_self_zero.
Qed.

Lemma norm_zero v : all_zero v -> norm v = 0.
Proof. intros Hz. unfold norm. rewrite dot_zero_r by assumption. apply sqrt_0. Qed.

Lemma norm_sqr v : norm v * norm v = dot v v.
Proof. unfold norm. apply sqrt_sqrt, dot_nonneg. Qed.

Lemma normalize_nonzero v :
  ~ all_zero v -> normalize v = map (fun x => x / norm v) v.
Proof.
  intros Hnz. unfold normalize. pose proof (norm_pos v Hnz).
  destruct (Req_dec_T (norm v) 0); [lra | reflexivity].
Qed.

Lemma normalize_zero v : all_zero v -> all_zero (normalize v).
Proof.
  intros Hz. unfold normalize, all_zero. rewrite norm_zero by assumption.
  destruct (Req_dec_T 0 0) as [_ | Hne]; [| contradiction].
  induction Hz as [|x v -> _ IH]; simpl; constructor; [lra | assumption].
Qed.

Lemma cosine_self v : ~ all_zero v -> dot (normalize v) (normalize v) = 1.
Proof.
  intros Hnz. pose proof (norm_pos v Hnz) as Hpos.
  rewrite normalize_nonzero by assumption.
  rewrite dot_scale by lra. rewrite norm_sqr.
  apply Rdiv_diag. rewrite <- norm_sqr. nra.
Qed.

Lemma all_zero_opp v : all_zero (map Ropp v) -> all_zero v.
Proof.
  unfold all_zero. induction v as [|x v IH]; simpl; intros H; [constructor |].
  inversion H as [|? ? Hx Hv]; subst. constructor; [lra | by apply IH].
Qed.

Lemma cosine_opp v : ~ all_zero v -> dot (normalize v) (normalize (map Ropp v)) = -1.
Proof.
  intros Hnz. pose proof (norm_pos v Hnz) as Hpos.
  assert (Hnz' : ~ all_zero (map Ropp v)) by (intros H; by apply Hnz, all_zero_opp).
  assert (Hnorm : norm (map Ropp v) = norm v) by (unfold norm; by rewrite dot_opp_opp).
  rewrite !normalize_nonzero by assumption. rewrite Hnorm.
  rewrite dot_scale by lra. rewrite dot_opp_r, norm_sqr.
  assert (dot v v <> 0) by (rewrite <- norm_sqr; nra).
  field. assumption.
Qed.

Lemma similarity_guarded u v :
  u <> [] -> v <> [] -> length u = length v ->
  similarity u v = dot (normalize u) (normalize v).
Proof.
  intros Hu Hv Hlen. unfold similarity, HybridRecommender._calculate_similarity.
  destruct u; [contradiction |]. destruct v; [contradiction |].
  rewrite Hlen, Nat.eqb_refl. reflexivity.
Qed.

Lemma similarity_unguarded u v :
  u = [] \/ v = [] \/ length u <> length v -> similarity u v = 0.
Proof.
  intros H. unfold similarity, HybridRecommender._calculate_similarity.
  destruct u as [|x u]; [reflexivity |]. destruct v as [|y v]; [reflexivity |].
  destruct H as [H | [H | H]]; try discriminate.
  apply Nat.eqb_neq in H. by rewrite H.
Qed.

(** C8: on non-zero vectors [sim(v, v) = 1] and [sim(v, -v) = -1]; [sim]
    is symmetric; vectors of different lengths, an empty vector or an
    all-zero vector give 0; and the method returns a number whatever the
    library call does, 0 when it raises. *)
Theorem cosine_similarity_laws :
  (forall v, ~ all_zero v ->
     similarity v v = 1 /\ similarity v (map Ropp v) = -1) /\
  (forall u v, similarity u v = similarity v u) /\
  (forall u v,
     length u <> length v \/ u = [] \/ v = [] \/ all_zero u \/ all_zero v ->
     similarity u v = 0) /\
  (forall (cosine : list R -> list R -> result R) u v,
     (forall e, cosine u v = Raise e ->
        HybridRecommender._calculate_similarity 0 cosine u v = 0) /\
     (forall s, cosine u v = Ok s ->
        HybridRecommender._calculate_similarity 0 cosine u v = s
        \/ HybridRecommender._calculate_similarity 0 cosine u v = 0)).
Proof.
  split_and!.
  - intros v Hnz.
    assert (Hne : v <> []) by (intros ->; apply Hnz; constructor).
    split.
    + rewrite similarity_guarded by auto. by apply cosine_self.
    + rewrite similarity_guarded; [by apply cosine_opp | assumption | |].
      * destruct v; [contradiction | discriminate].
      * by rewrite length_map.
  - intros u v.
    destruct (decide (u = [])) as [-> | Hu].
    { rewrite !similarity_unguarded by auto. reflexivity. }
    destruct (decide (v = [])) as [-> | Hv].
    { rewrite !similarity_unguarded by auto. reflexivity. }
    destruct (decide (length u = length v)) as [Hlen | Hlen].
    + rewrite !similarity_guarded by auto. apply dot_comm.
    + rewrite !similarity_unguarded by auto. reflexivity.
  - intros u v H.
    destruct (decide (u = [])) as [-> | Hu]; [by apply similarity_unguarded; auto |].
    destruct (decide (v = [])) as [-> | Hv]; [by apply similarity_unguarded; auto |].
    destruct (decide (length u = length v)) as [Hlen | Hlen];
      [| by apply similarity_unguarded; auto].
    rewrite similarity_guarded by assumption.
    destruct H as [H | [H | [H | [H | H]]]]; try contradiction.
    + by apply dot_zero_l, normalize_zero.
    + by apply dot_zero_r, normalize_zero.
  - intros cosine u v. unfold HybridRecommender._calculate_similarity. split.
    + intros e ->. by destruct (_ || _ || _)%bool.
    + intros s ->. destruct (_ || _ || _)%bool; auto.
Qed.

End CosineFacts.

Lemma cosine_similarity_laws_witness :
  (Cosine.similarity [3; 4] [3; 4] = 1 /\ Cosine.similarity [3; 4] [-3; -4] = -1)%R.
Proof.
  assert (Hnz : ~ Cosine.all_zero [3%R; 4%R]).
  { intros H. inversion H; subst. lra. }
  destruct (proj1 cosine_similarity_laws [3%R; 4%R] Hnz) as [Hself Hopp].
  split; [exact Hself |].
  replace [(-3)%R; (-4)%R] with (map Ropp [3%R; 4%R]); [exact Hopp |].
  simpl. reflexivity.
Defined.

(** ** The recommender on the repositories of [app/data/repositories] *)

Lemma for_unchanged {A S} (body : S -> A -> result S) (xs : list A) (s r : S) :
  (forall s x r, x ∈ xs -> body s x = Ok r -> r = s) ->
  for_ xs s body = Ok r -> r = s.
Proof.
  revert s. induction xs as [|x xs IH]; intros s Hbody H; simpl in H.
  - by injection H as <-.
  - inv_bind H. apply Hbody in Ha; [| apply elem_of_cons; by left]. subst a.
    apply IH; [| assumption]. intros s' x' r' Hx'. apply Hbody, elem_of_cons. by right.
Qed.

(** What [ContentRepository.get_content_by_id] returns has an integer
    [content_id], a [created_at] that is a datetime or [None], and no
    [engagement_score]. *)
Lemma get_content_by_id_keys db content_id content_data :
  ContentRepository.get_content_by_id db content_id = Some content_data ->
  (exists i, content_data !! "content_id" = Some (VInt i)) /\
  (exists t, content_data !! "created_at" = Some (opt_datetime t)) /\
  content_data !! "engagement_score" = None.
Proof.
  unfold ContentRepository.get_content_by_id.
  destruct (query_post db content_id) as [post|]; [| discriminate].
  intros [= <-]. split_and!; [eexists | eexists |]; reflexivity.
Qed.

Lemma get_content_by_hashtag_items db hashtag limit post :
  post ∈ ContentRepository.get_content_by_hashtag db hashtag limit ->
  exists content_id, ContentRepository.get_content_by_id db content_id = Some post.
Proof.
  unfold ContentRepository.get_content_by_hashtag. intros H.
  apply list_elem_of_omap in H. destruct H as (p & _ & Hp).
  exists (Post.post_id p).
  destruct (ContentRepository.get_content_by_id db (Post.post_id p)) as [d|];
    [| discriminate].
  destruct (dict_truthy (Some d)); [| discriminate]. by injection Hp as ->.
Qed.

Lemma age_days_of_opt_datetime env t : exists n, HybridRecommender.age_days_of env (opt_datetime t) = Ok n.
Proof. destruct t; simpl; eauto. Qed.

(** On [ContentRepository], the content-based source emits nothing: a post
    that is not excluded makes it raise. *)
Lemma content_based_with_ContentRepository env clock db ur ir user_id exclude_ids r :
  HybridRecommender._get_content_based_candidates env
    (HybridRecommender.__init__ db ur (ContentRepository.new clock) ir)
    user_id exclude_ids = Ok r ->
  r = [].
Proof.
  unfold HybridRecommender._get_content_based_candidates. simpl. intros H.
  inv_bind H. apply for_unchanged in H; [assumption |].
  clear. intros acc interest r _ H. simpl in H.
  apply for_unchanged in H; [assumption |].
  clear. intros acc post r Hpost H.
  apply get_content_by_hashtag_items in Hpost. destruct Hpost as (content_id & Hpost).
  apply get_content_by_id_keys in Hpost.
  destruct Hpost as ((i & Hid) & (t & Hcreated) & Hscore).
  unfold getitem in H. rewrite Hid, Hcreated, Hscore in H. simpl in H.
  destruct (bool_decide (i ∈ exclude_ids)); [by injection H as <- |].
  destruct (age_days_of_opt_datetime env t) as (n & Hn). rewrite Hn in H.
  simpl in H. discriminate.
Qed.

(** On [ContentRepository], the trending source raises, and so the whole
    pipeline does: [recommend] returns the empty list. *)
Lemma trending_with_ContentRepository env clock db ur ir exclude_ids :
  HybridRecommender._get_trending_candidates env
    (HybridRecommender.__init__ db ur (ContentRepository.new clock) ir) exclude_ids
  = Raise (TypeError
      "get_trending_content() missing 1 required positional argument: 'db'").
Proof. reflexivity. Qed.

Lemma recommend_with_ContentRepository env clock db ur ir g user_id user_features
    exclude_content_ids filters limit :
  HybridRecommender.recommend env
    (HybridRecommender.__init__ db ur (ContentRepository.new clock) ir) g
    user_id user_features exclude_content_ids filters limit = Ok [].
Proof.
  unfold HybridRecommender.recommend, try_except.
  destruct (HybridRecommender.recommend_body _ _ _ _ _ _ _ _) as [l|e] eqn:Hbody;
    [| reflexivity].
  exfalso. unfold HybridRecommender.recommend_body in Hbody. cbv zeta in Hbody.
  inv_bind Hbody. inv_bind Hbody.
  unfold HybridRecommender._get_recommendation_candidates in Ha0.
  inv_bind Ha0. inv_bind Ha0. inv_bind Ha0. inv_bind Ha0.
  by rewrite trending_with_ContentRepository in Ha4.
Qed.

Example recency_of_40_days : (HybridRecommender.recency_of 40 == 0)%Q.
Proof. reflexivity. Qed.

Example recency_of_0_days : (HybridRecommender.recency_of 0 == 1)%Q.
Proof. reflexivity. Qed.

(** C3: user 1 is interested in "Technology" and post 1, tagged
    "technology", is not excluded; the content-based source emits no
    candidate for it: reading [post["engagement_score"]] raises KeyError. *)
Theorem content_based_source_raises :
  HybridRecommender._get_content_based_candidates Sample.env Sample.recommender 1 ∅
  = Raise (KeyError "engagement_score").
Proof. vm_compute. reflexivity. Qed.

(** ** The route *)

(** The route answers a missing user with status 500, whatever the
    repositories: the 404 it raises is caught by its own handler. *)
Lemma get_recommendations_missing_user env g user_id request model user_repo
    content_repo db :
  UserRepo.get_user_by_id user_repo db user_id = Ok None ->
  exists detail,
    routes.get_recommendations env g user_id request model user_repo content_repo db
    = Raise (HTTPException 500 detail).
Proof.
  intros H. unfold routes.get_recommendations. rewrite H. simpl. eauto.
Qed.

(** C5: user 999 does not exist; the request fails with status 500, not
    with the 404 that the route raises for it. *)
Theorem unknown_user_gets_500 :
  routes.get_recommendations Sample.env Sample.rng 999 Sample.request Sample.recommender
    (UserRepository.new Sample.sample_clock) (ContentRepository.new Sample.sample_clock)
    Sample.db
  = Raise (HTTPException 500
      "Error generating recommendations: 404: User with ID 999 not found").
Proof. vm_compute. reflexivity. Qed.

(** ** The feature vectors *)

(** C9: post 1 has 1 impression and 5 reactions; the last component of
    its engagement embedding, the engagement rate, is 5. *)
Theorem engagement_rate_exceeds_one :
  exists embedding,
    bind (ContentFeatureExtractor.engagement_features Sample.post1_data)
         ContentFeatureExtractor._compute_engagement_embedding = Ok embedding /\
    last embedding = Some 5%Q /\
    ~ Stated.bounded embedding.
Proof.
  eexists. split; [vm_compute; reflexivity |]. split; [reflexivity |].
  unfold Stated.bounded. intros H.
  apply Forall_forall with (x := 5%Q) in H.
  - destruct H as [_ H]. vm_compute in H. by apply H.
  - do 5 (apply elem_of_cons; right). apply elem_of_cons. by left.
Qed.
